(** * RAG agent: tool-orchestration loop over a relational store

    A shallow embedding of [rag_agent.py]: the Data Access Layer (eight
    retrieval operations that build a parameterised SQL query and hand it
    to [execute_query]), the dispatcher [execute_tool] and the
    orchestrator loop [get_ai_response].

    Conventions of the embedding.
    - Python values supplied by the model are JSON scalars ([pyval]).
    - Strings are byte strings; non-ASCII literals are their UTF-8 bytes.
    - Exceptions are values of [exn]; code that may raise and that calls
      [st.error] lives in the monad [M] (a log of UI notes and either an
      exception or a value).
    - The source only produces SQL text.  A query is kept as a small
      syntax tree ([select]); [render] gives the text sent to the store
      (up to the layout of blanks and line breaks) and [run_select] gives
      the rows PostgreSQL returns for it.
    - What belongs to PostgreSQL, pandas or the json module and not to
      the source is a parameter of the development: the date input
      function, the printing of dates and numbers, and [json.dumps]. *)

From Stdlib Require Import List String Ascii ZArith QArith Qround Qabs Lia Lqa Bool.
From Stdlib Require Import DecimalString Sorted Permutation.
Import ListNotations.
Set Warnings "-register-all".
Open Scope string_scope.
Open Scope list_scope.
Open Scope Z_scope.

(** String concatenation, Python's [+] on [str] and the f-string. *)
Infix "+++" := String.append (at level 60, right associativity).

(** ** Python values and keyword arguments *)

Inductive pyval : Type :=
| PNone
| PBool (b : bool)
| PInt (z : Z)
| PStr (s : string).

(** [bool(v)], as the [if query:] tests of the operations use it. *)
Definition truthy (v : pyval) : bool :=
  match v with
  | PNone => false
  | PBool b => b
  | PInt z => negb (z =? 0)
  | PStr s => negb (String.eqb s "")
  end.

Definition str_of_Z (z : Z) : string := NilZero.string_of_int (Z.to_int z).

(** [str(v)], as an f-string field formats it. *)
Definition py_str (v : pyval) : string :=
  match v with
  | PNone => "None"
  | PBool true => "True"
  | PBool false => "False"
  | PInt z => str_of_Z z
  | PStr s => s
  end.

(** A [dict] with string keys, such as [tool_call.input]. *)
Definition kwargs : Type := list (string * pyval).

Fixpoint kw_find (d : kwargs) (k : string) : option pyval :=
  match d with
  | [] => None
  | (k', v) :: d' => if String.eqb k k' then Some v else kw_find d' k
  end.

(** The value bound to parameter [k] when the function is called as
    [f] with the entries of [d] as keyword arguments: the supplied one,
    or the parameter's default. *)
Definition kw (d : kwargs) (k : string) (default : pyval) : pyval :=
  match kw_find d k with
  | Some v => v
  | None => default
  end.

(** ** Exceptions and the monad of the operations *)

Inductive exn : Type :=
| TypeError (msg : string)
| IndexError (msg : string).

Definition exn_str (e : exn) : string :=
  match e with
  | TypeError m => m
  | IndexError m => m
  end.

(** Notes shown with [st.error], then the exception raised or the value
    returned. *)
Definition M (A : Type) : Type := (list string * (exn + A))%type.

Definition ret {A} (a : A) : M A := ([], inr a).
Definition raise {A} (e : exn) : M A := ([], inl e).
Definition st_error (note : string) : M unit := ([note], inr tt).

Definition bind {A B} (m : M A) (f : A -> M B) : M B :=
  match m with
  | (n1, inl e) => (n1, inl e)
  | (n1, inr a) => let (n2, r) := f a in (n1 ++ n2, r)
  end.

(** [try: m  except Exception as e: h e] *)
Definition try_except {A} (m : M A) (h : exn -> M A) : M A :=
  match m with
  | (n1, inl e) => let (n2, r) := h e in (n1 ++ n2, r)
  | (n1, inr a) => (n1, inr a)
  end.

Definition notes {A} (m : M A) : list string := fst m.
Definition outcome {A} (m : M A) : exn + A := snd m.

Notation "x <- m ;; k" := (bind m (fun x => k))
  (at level 61, m at next level, right associativity).
Notation "m ;;; k" := (bind m (fun _ => k))
  (at level 61, right associativity).

(** ** Stored records and cells *)

Inductive cell : Type :=
| CNull
| CBool (b : bool)
| CInt (z : Z)
| CNum (q : Q)
| CText (s : string)
| CDate (d : Z).

(** A row of a result set or of a table: column label to value. *)
Definition row : Type := list (string * cell).
Definition DataFrame : Type := list row.

Fixpoint lookup (c : string) (r : row) : cell :=
  match r with
  | [] => CNull
  | (c', v) :: r' => if String.eqb c c' then v else lookup c r'
  end.

(** Dates are day numbers.  The four record sets of the store. *)
Record purchase : Type := {
  p_doc_date : Z;
  p_doc_number : string;
  p_contractor_name : string;
  p_nomenclature_name : string;
  p_quantity : Q;
  p_price : Q;
  p_sum_total : Q
}.

Record sale : Type := {
  s_doc_type : string;
  s_doc_date : Z;
  s_doc_number : string;
  s_client_name : string;
  s_nomenclature_name : string;
  s_quantity : Q;
  s_price : Q;
  s_sum_with_vat : Q
}.

Record nomenclature_item : Type := {
  n_name : string;
  n_article : string;
  n_code : string;
  n_is_folder : bool;
  n_type_id : option Z
}.

Record nomenclature_type : Type := {
  nt_id : Z;
  nt_name : string
}.

Record client : Type := {
  c_name : string;
  c_inn : string
}.

(** The store as one query sees it.  [db_failure = Some msg] is a store
    that cannot be reached: [pd.read_sql] raises with message [msg]. *)
Record store : Type := {
  db_failure : option string;
  purchase_prices : list purchase;
  sales : list sale;
  nomenclature : list nomenclature_item;
  nomenclature_types : list nomenclature_type;
  clients : list client
}.

Definition purchase_row (p : purchase) : row :=
  [("doc_date", CDate (p_doc_date p)); ("doc_number", CText (p_doc_number p));
   ("contractor_name", CText (p_contractor_name p));
   ("nomenclature_name", CText (p_nomenclature_name p));
   ("quantity", CNum (p_quantity p)); ("price", CNum (p_price p));
   ("sum_total", CNum (p_sum_total p))].

Definition sale_row (s : sale) : row :=
  [("doc_type", CText (s_doc_type s)); ("doc_date", CDate (s_doc_date s));
   ("doc_number", CText (s_doc_number s));
   ("client_name", CText (s_client_name s));
   ("nomenclature_name", CText (s_nomenclature_name s));
   ("quantity", CNum (s_quantity s)); ("price", CNum (s_price s));
   ("sum_with_vat", CNum (s_sum_with_vat s))].

Definition nomenclature_row (n : nomenclature_item) : row :=
  [("name", CText (n_name n)); ("article", CText (n_article n));
   ("code", CText (n_code n)); ("is_folder", CBool (n_is_folder n));
   ("type_id", match n_type_id n with Some i => CInt i | None => CNull end)].

Definition nomenclature_type_row (t : nomenclature_type) : row :=
  [("id", CInt (nt_id t)); ("name", CText (nt_name t))].

Definition client_row (c : client) : row :=
  [("name", CText (c_name c)); ("inn", CText (c_inn c))].

Definition table_rows (st : store) (t : string) : option (list row) :=
  if String.eqb t "purchase_prices" then Some (map purchase_row (purchase_prices st))
  else if String.eqb t "sales" then Some (map sale_row (sales st))
  else if String.eqb t "nomenclature" then Some (map nomenclature_row (nomenclature st))
  else if String.eqb t "nomenclature_types"
       then Some (map nomenclature_type_row (nomenclature_types st))
  else if String.eqb t "clients" then Some (map client_row (clients st))
  else None.

(** ** The ILIKE operator

    [text ILIKE pattern]: in the pattern [%] matches any run of
    characters, [_] any one character, and a backslash takes the next
    character literally; letters are compared without regard to case.
    Case folding is that of the ASCII letters (the folding of other
    letters depends on the locale of the database and is left out). *)

Inductive like_tok : Type :=
| LAny
| LOne
| LChar (c : ascii).

Definition backslash : ascii := ascii_of_nat 92.
Definition percent : ascii := ascii_of_nat 37.
Definition underscore : ascii := ascii_of_nat 95.

(** The pattern as tokens; [None] when it ends in a lone backslash, which
    PostgreSQL rejects. *)
Fixpoint like_tokens (p : list ascii) : option (list like_tok) :=
  match p with
  | [] => Some []
  | c :: p' =>
      if Ascii.eqb c backslash then
        match p' with
        | [] => None
        | d :: p'' => option_map (cons (LChar d)) (like_tokens p'')
        end
      else if Ascii.eqb c percent then option_map (cons LAny) (like_tokens p')
      else if Ascii.eqb c underscore then option_map (cons LOne) (like_tokens p')
      else option_map (cons (LChar c)) (like_tokens p')
  end.

Fixpoint like_match (ts : list like_tok) (s : list ascii) {struct ts} : bool :=
  match ts with
  | [] => match s with [] => true | _ :: _ => false end
  | LChar c :: ts' =>
      match s with
      | d :: s' => Ascii.eqb c d && like_match ts' s'
      | [] => false
      end
  | LOne :: ts' =>
      match s with
      | _ :: s' => like_match ts' s'
      | [] => false
      end
  | LAny :: ts' =>
      (fix skip (s : list ascii) : bool :=
         like_match ts' s
         || match s with
            | [] => false
            | _ :: s' => skip s'
            end) s
  end.

Definition lower (c : ascii) : ascii :=
  let n := nat_of_ascii c in
  if (65 <=? n)%nat && (n <=? 90)%nat then ascii_of_nat (n + 32) else c.

Definition fold_tok (t : like_tok) : like_tok :=
  match t with
  | LChar c => LChar (lower c)
  | _ => t
  end.

Definition lower_string (s : string) : list ascii :=
  map lower (list_ascii_of_string s).

Definition ilike_tokens (pat : string) : option (list like_tok) :=
  option_map (map fold_tok) (like_tokens (list_ascii_of_string pat)).

Definition ilike (text : string) (ts : list like_tok) : bool :=
  like_match ts (lower_string text).

(** ** Comparison of cells *)

Definition cell_eqb (a b : cell) : bool :=
  match a, b with
  | CNull, CNull => true
  | CBool x, CBool y => Bool.eqb x y
  | CInt x, CInt y => x =? y
  | CNum x, CNum y => Qeq_bool x y
  | CText x, CText y => String.eqb x y
  | CDate x, CDate y => x =? y
  | _, _ => false
  end.

(** The order ORDER BY sorts by; NULL is larger than every value, as in
    PostgreSQL. *)
Definition cell_leb (a b : cell) : bool :=
  match a, b with
  | _, CNull => true
  | CNull, _ => false
  | CBool x, CBool y => implb x y
  | CInt x, CInt y => x <=? y
  | CNum x, CNum y => Qle_bool x y
  | CText x, CText y => String.leb x y
  | CDate x, CDate y => x <=? y
  | _, _ => false
  end.

(** ** Queries *)

(** One element of the [conditions] list of an operation. *)
Inductive cond : Type :=
| CondTrue                               (* 1=1 *)
| CondBoolLit (col : string) (b : bool)  (* col = false *)
| CondTextLit (col lit : string)         (* col = 'lit' *)
| CondIlikeOr (c1 c2 : string)           (* (c1 ILIKE %s OR c2 ILIKE %s) *)
| CondIlike (col : string)               (* col ILIKE %s *)
| CondEq (col : string)                  (* col = %s *)
| CondGe (col : string)                  (* col >= %s *)
| CondLe (col : string).                 (* col <= %s *)

Definition render_cond (c : cond) : string :=
  match c with
  | CondTrue => "1=1"
  | CondBoolLit col b => col +++ " = " +++ (if b then "true" else "false")
  | CondTextLit col lit => col +++ " = '" +++ lit +++ "'"
  | CondIlikeOr c1 c2 => "(" +++ c1 +++ " ILIKE %s OR " +++ c2 +++ " ILIKE %s)"
  | CondIlike col => col +++ " ILIKE %s"
  | CondEq col => col +++ " = %s"
  | CondGe col => col +++ " >= %s"
  | CondLe col => col +++ " <= %s"
  end.

(** [sep.join(parts)] *)
Fixpoint join (sep : string) (parts : list string) : string :=
  match parts with
  | [] => ""
  | [p] => p
  | p :: ps => p +++ sep +++ join sep ps
  end.

(** One element of a select list. *)
Inductive item : Type :=
| ICol (col : string)
| IColAs (col alias : string)
| ICountStar (alias : string)
| ICountDistinct (col alias : string)
| ISum (col alias : string)
| ICoalesceSum (col alias : string)
| ICoalesceSumCase (tcol lit vcol alias : string)
| IMin (col alias : string)
| IMax (col alias : string).

Definition render_item (i : item) : string :=
  match i with
  | ICol col => col
  | IColAs col alias => col +++ " as " +++ alias
  | ICountStar alias => "COUNT(*) as " +++ alias
  | ICountDistinct col alias => "COUNT(DISTINCT " +++ col +++ ") as " +++ alias
  | ISum col alias => "SUM(" +++ col +++ ") as " +++ alias
  | ICoalesceSum col alias => "COALESCE(SUM(" +++ col +++ "), 0) as " +++ alias
  | ICoalesceSumCase tcol lit vcol alias =>
      "COALESCE(SUM(CASE WHEN " +++ tcol +++ " = '" +++ lit +++ "' THEN "
      +++ vcol +++ " ELSE 0 END), 0) as " +++ alias
  | IMin col alias => "MIN(" +++ col +++ ") as " +++ alias
  | IMax col alias => "MAX(" +++ col +++ ") as " +++ alias
  end.

Inductive from_clause : Type :=
| FTable (t : string)
| FLeftJoin (t1 a1 t2 a2 c1 c2 : string).
   (* t1 a1 LEFT JOIN t2 a2 ON a1.c1 = a2.c2 *)

Definition render_from (f : from_clause) : string :=
  match f with
  | FTable t => t
  | FLeftJoin t1 a1 t2 a2 c1 c2 =>
      t1 +++ " " +++ a1 +++ " LEFT JOIN " +++ t2 +++ " " +++ a2 +++ " ON "
      +++ a1 +++ "." +++ c1 +++ " = " +++ a2 +++ "." +++ c2
  end.

(** A query as the operations build it.  [sel_where = None] is a query
    without WHERE clause; [sel_limit] holds the value formatted into the
    text after LIMIT. *)
Record select : Type := {
  sel_items : list item;
  sel_from : from_clause;
  sel_where : option (list cond);
  sel_group : option string;
  sel_order : option (string * bool);
  sel_limit : option pyval
}.

(** The query text, tokens separated by single blanks. *)
Definition render (q : select) : string :=
  "SELECT " +++ join ", " (map render_item (sel_items q))
  +++ " FROM " +++ render_from (sel_from q)
  +++ match sel_where q with
      | Some cs => " WHERE " +++ join " AND " (map render_cond cs)
      | None => ""
      end
  +++ match sel_group q with
      | Some g => " GROUP BY " +++ g
      | None => ""
      end
  +++ match sel_order q with
      | Some (c, true) => " ORDER BY " +++ c +++ " DESC"
      | Some (c, false) => " ORDER BY " +++ c
      | None => ""
      end
  +++ match sel_limit q with
      | Some l => " LIMIT " +++ py_str l
      | None => ""
      end.

(** ** Values handed back to the model *)

(** A float as pandas and numpy compute with it: a finite value or one of
    the three special values.  Finite values are exact rationals, so the
    rounding error of binary floating point is left out; what is kept is
    that arithmetic on numpy scalars never raises: a division by zero
    gives an infinity or NaN (with a warning) where Python's own float
    would raise ZeroDivisionError. *)
Inductive float64 : Type :=
| Fin (q : Q)
| PInf
| NInf
| NaN.

(** What a payload is made of before [json.dumps] turns it into text. *)
Inductive pyobj : Type :=
| ONone
| OBool (b : bool)
| OInt (z : Z)
| OFloat (f : float64)
| OStr (s : string)
| OCell (c : cell)
| OList (l : list pyobj)
| ODict (d : list (string * pyobj)).

Definition obj_of_row (r : row) : pyobj :=
  ODict (map (fun cv => (fst cv, OCell (snd cv))) r).

(** [df.to_dict('records')] *)
Definition to_records (df : DataFrame) : pyobj := OList (map obj_of_row df).

Fixpoint dict_get (d : list (string * pyobj)) (k : string) : option pyobj :=
  match d with
  | [] => None
  | (k', v) :: d' => if String.eqb k k' then Some v else dict_get d' k
  end.

(** [o[k]] of a dict, [None] when [o] has no key [k]. *)
Definition field (o : pyobj) (k : string) : option pyobj :=
  match o with
  | ODict d => dict_get d k
  | _ => None
  end.

(** ** Evaluation of a query *)

Definition sql_eqb (a b : cell) : bool :=
  match a with
  | CNull => false
  | _ => cell_eqb a b
  end.

Definition text_ilike (c : cell) (ts : list like_tok) : bool :=
  match c with
  | CText s => ilike s ts
  | _ => false
  end.

Fixpoint after_dot (s : string) : option string :=
  match s with
  | EmptyString => None
  | String c s' => if Ascii.eqb c "." then Some s' else after_dot s'
  end.

(** The label of an output column: the column name without qualifier. *)
Definition label (col : string) : string :=
  match after_dot col with
  | Some l => l
  | None => col
  end.

Definition qualify (a : string) (r : row) : row :=
  map (fun cv => (a +++ "." +++ fst cv, snd cv)) r.

Definition from_rows (st : store) (f : from_clause) : option (list row) :=
  match f with
  | FTable t => table_rows st t
  | FLeftJoin t1 a1 t2 a2 c1 c2 =>
      match table_rows st t1, table_rows st t2 with
      | Some l1, Some l2 =>
          Some (flat_map
                  (fun r1 =>
                     match filter (fun r2 => sql_eqb (lookup c1 r1) (lookup c2 r2)) l2 with
                     | [] => [qualify a1 r1]
                     | ms => map (fun r2 => qualify a1 r1 ++ qualify a2 r2) ms
                     end) l1)
      | _, _ => None
      end
  end.

Definition cell_num (c : cell) : option Q :=
  match c with
  | CNum q => Some q
  | CInt z => Some (inject_Z z)
  | _ => None
  end.

Definition sum_q (qs : list Q) : Q := fold_right Qplus 0%Q qs.

Definition nums (cs : list cell) : list Q :=
  flat_map (fun c => match cell_num c with Some q => [q] | None => [] end) cs.

(** SUM over the values of a group: NULL when no value is numeric. *)
Definition sum_cells (cs : list cell) : cell :=
  match nums cs with
  | [] => CNull
  | qs => CNum (sum_q qs)
  end.

Definition coalesce0 (c : cell) : cell :=
  match c with
  | CNull => CNum 0
  | _ => c
  end.

Definition non_null (cs : list cell) : list cell :=
  filter (fun c => negb (cell_eqb c CNull)) cs.

Fixpoint dedup (cs : list cell) : list cell :=
  match cs with
  | [] => []
  | c :: cs' => c :: filter (fun d => negb (cell_eqb c d)) (dedup cs')
  end.

Definition min_cell (cs : list cell) : cell :=
  fold_right (fun c m => if cell_leb c m then c else m) CNull (non_null cs).

Definition max_cell (cs : list cell) : cell :=
  fold_right (fun c m => match m with
                         | CNull => c
                         | _ => if cell_leb c m then m else c
                         end) CNull (non_null cs).

Definition is_aggregate (i : item) : bool :=
  match i with
  | ICol _ | IColAs _ _ => false
  | _ => true
  end.

(** The value of a select item over the rows of one group (a single row
    for a query without aggregates). *)
Definition eval_item (grp : list row) (i : item) : string * cell :=
  let first c := match grp with r :: _ => lookup c r | [] => CNull end in
  match i with
  | ICol col => (label col, first col)
  | IColAs col alias => (alias, first col)
  | ICountStar alias => (alias, CInt (Z.of_nat (List.length grp)))
  | ICountDistinct col alias =>
      (alias, CInt (Z.of_nat (List.length (dedup (non_null (map (lookup col) grp))))))
  | ISum col alias => (alias, sum_cells (map (lookup col) grp))
  | ICoalesceSum col alias => (alias, coalesce0 (sum_cells (map (lookup col) grp)))
  | ICoalesceSumCase tcol lit vcol alias =>
      (alias,
       coalesce0
         (sum_cells
            (map (fun r => if sql_eqb (lookup tcol r) (CText lit)
                           then lookup vcol r else CNum 0) grp)))
  | IMin col alias => (alias, min_cell (map (lookup col) grp))
  | IMax col alias => (alias, max_cell (map (lookup col) grp))
  end.

Definition eval_items (items : list item) (grp : list row) : row :=
  map (eval_item grp) items.

(** Stable insertion sort: the order of rows with equal keys is the one
    they had, one of the orders PostgreSQL may return. *)
Fixpoint insert_by {A : Type} (leb : A -> A -> bool) (x : A) (l : list A) : list A :=
  match l with
  | [] => [x]
  | y :: l' => if leb x y then x :: l else y :: insert_by leb x l'
  end.

Definition sort_by {A : Type} (leb : A -> A -> bool) (l : list A) : list A :=
  fold_right (insert_by leb) [] l.

Definition order_leb (o : string * bool) (a b : row) : bool :=
  let (col, desc) := o in
  if desc then cell_leb (lookup col b) (lookup col a)
  else cell_leb (lookup col a) (lookup col b).

Definition order_rows (o : option (string * bool)) (l : list row) : list row :=
  match o with
  | Some o => sort_by (order_leb o) l
  | None => l
  end.

(** The count after LIMIT: [Some None] without LIMIT clause, [None] when
    the text after LIMIT is not a non-negative integer literal (the
    store then rejects the query). *)
Definition limit_count (l : option pyval) : option (option nat) :=
  match l with
  | None => Some None
  | Some (PInt z) => if 0 <=? z then Some (Some (Z.to_nat z)) else None
  | Some (PStr s) => option_map (fun u => Some (Nat.of_uint u)) (NilZero.uint_of_string s)
  | Some _ => None
  end.

Definition take (lim : option nat) (l : list row) : list row :=
  match lim with
  | Some n => firstn n l
  | None => l
  end.

Definition group_rows (g : string) (rows : list row) : list (list row) :=
  map (fun k => filter (fun r => cell_eqb (lookup g r) k) rows)
      (dedup (map (lookup g) rows)).

(** ** A sample instance

    One choice for the parameters of the development, used by the
    examples: dates written as day numbers, numbers printed as
    fractions, and a plain serialiser. *)

Definition sample_parse_date (s : string) : option Z :=
  match NilZero.int_of_string s with
  | Some i => Some (Z.of_int i)
  | None => None
  end.

Definition sample_date_str (d : Z) : string := str_of_Z d.

Definition sample_num_str (q : Q) : string :=
  str_of_Z (Qnum q) +++ "/" +++ str_of_Z (Zpos (Qden q)).

Definition quote (s : string) : string :=
  String (ascii_of_nat 34) s +++ String (ascii_of_nat 34) EmptyString.

Definition sample_cell_str (c : cell) : string :=
  match c with
  | CNull => "null"
  | CBool true => "true"
  | CBool false => "false"
  | CInt z => str_of_Z z
  | CNum q => sample_num_str q
  | CText s => quote s
  | CDate d => quote (sample_date_str d)
  end.

Fixpoint sample_json_dumps (o : pyobj) : string :=
  match o with
  | ONone => "null"
  | OBool true => "true"
  | OBool false => "false"
  | OInt z => str_of_Z z
  | OFloat (Fin q) => sample_num_str q
  | OFloat PInf => "Infinity"
  | OFloat NInf => "-Infinity"
  | OFloat NaN => "NaN"
  | OStr s => quote s
  | OCell c => sample_cell_str c
  | OList l => "[" +++ join ", " (map sample_json_dumps l) +++ "]"
  | ODict d =>
      "{" +++ join ", " (map (fun kv => quote (fst kv) +++ ": "
                                        +++ sample_json_dumps (snd kv)) d) +++ "}"
  end.

Definition sample_purchases : list purchase :=
  [{| p_doc_date := 3; p_doc_number := "P-1"; p_contractor_name := "Acme";
      p_nomenclature_name := "Sugar"; p_quantity := 1; p_price := 0;
      p_sum_total := 10 |};
   {| p_doc_date := 1; p_doc_number := "P-2"; p_contractor_name := "Beta";
      p_nomenclature_name := "sugar white"; p_quantity := 2; p_price := 5;
      p_sum_total := 10 |};
   {| p_doc_date := 2; p_doc_number := "P-3"; p_contractor_name := "Acme";
      p_nomenclature_name := "Flour"; p_quantity := 2; p_price := 7;
      p_sum_total := 14 |}].

Definition sample_sales : list sale :=
  [{| s_doc_type := "Реализация"; s_doc_date := 1; s_doc_number := "S-1";
      s_client_name := "Magnit"; s_nomenclature_name := "Cake"; s_quantity := 1;
      s_price := 100; s_sum_with_vat := 100 |};
   {| s_doc_type := "Реализация"; s_doc_date := 2; s_doc_number := "S-2";
      s_client_name := "Lenta"; s_nomenclature_name := "Cake"; s_quantity := 3;
      s_price := 100; s_sum_with_vat := 300 |};
   {| s_doc_type := "Реализация"; s_doc_date := 3; s_doc_number := "S-3";
      s_client_name := "Magnit"; s_nomenclature_name := "Pie"; s_quantity := 5;
      s_price := 50; s_sum_with_vat := 250 |};
   {| s_doc_type := "Корректировка"; s_doc_date := 3; s_doc_number := "S-4";
      s_client_name := "Magnit"; s_nomenclature_name := "Pie"; s_quantity := 1;
      s_price := 1000; s_sum_with_vat := 1000 |}].

Definition sample_store : store :=
  {| db_failure := None;
     purchase_prices := sample_purchases;
     sales := sample_sales;
     nomenclature := [];
     nomenclature_types := [];
     clients := [{| c_name := "Magnit"; c_inn := "7701" |};
                 {| c_name := "Lenta"; c_inn := "7802" |}] |}.

Definition store_down : store :=
  {| db_failure := Some "connection refused";
     purchase_prices := sample_purchases;
     sales := sample_sales;
     nomenclature := [];
     nomenclature_types := [];
     clients := [] |}.

(** A store in which the oldest purchase of an item has price zero. *)
Definition store_with_free_sample : store :=
  {| db_failure := None;
     purchase_prices :=
       [{| p_doc_date := 2; p_doc_number := "P-8"; p_contractor_name := "Acme";
           p_nomenclature_name := "Vanilla"; p_quantity := 1; p_price := 5;
           p_sum_total := 5 |};
        {| p_doc_date := 1; p_doc_number := "P-7"; p_contractor_name := "Acme";
           p_nomenclature_name := "Vanilla"; p_quantity := 1; p_price := 0;
           p_sum_total := 0 |}];
     sales := [];
     nomenclature := [];
     nomenclature_types := [];
     clients := [] |}.

Section Agent.

(** PostgreSQL's date input: the day a text denotes, [None] when the
    text is rejected. *)
Variable parse_date : string -> option Z.
(** [str] of a [datetime.date] and of a number. *)
Variable date_str : Z -> string.
Variable num_str : Q -> string.
(** [json.dumps(o, ensure_ascii=False, default=str)] *)
Variable json_dumps : pyobj -> string.

(** A condition with its placeholders bound to the next parameters:
    the predicate on rows and the parameters left, or [None] when the
    store rejects the query (a parameter is missing, has the wrong type
    for the column, or is no date or no pattern). *)
Definition bind_cond (c : cond) (ps : list pyval)
  : option ((row -> bool) * list pyval) :=
  match c with
  | CondTrue => Some (fun _ => true, ps)
  | CondBoolLit col b => Some (fun r => sql_eqb (lookup col r) (CBool b), ps)
  | CondTextLit col lit => Some (fun r => sql_eqb (lookup col r) (CText lit), ps)
  | CondIlikeOr c1 c2 =>
      match ps with
      | PStr p1 :: PStr p2 :: ps' =>
          match ilike_tokens p1, ilike_tokens p2 with
          | Some t1, Some t2 =>
              Some (fun r => text_ilike (lookup c1 r) t1 || text_ilike (lookup c2 r) t2, ps')
          | _, _ => None
          end
      | _ => None
      end
  | CondIlike col =>
      match ps with
      | PStr p :: ps' =>
          match ilike_tokens p with
          | Some t => Some (fun r => text_ilike (lookup col r) t, ps')
          | None => None
          end
      | _ => None
      end
  | CondEq col =>
      match ps with
      | PStr s :: ps' => Some (fun r => sql_eqb (lookup col r) (CText s), ps')
      | _ => None
      end
  | CondGe col =>
      match ps with
      | PStr s :: ps' =>
          match parse_date s with
          | Some d => Some (fun r => match lookup col r with
                                     | CDate x => d <=? x
                                     | _ => false
                                     end, ps')
          | None => None
          end
      | _ => None
      end
  | CondLe col =>
      match ps with
      | PStr s :: ps' =>
          match parse_date s with
          | Some d => Some (fun r => match lookup col r with
                                     | CDate x => x <=? d
                                     | _ => false
                                     end, ps')
          | None => None
          end
      | _ => None
      end
  end.

Fixpoint bind_conds (cs : list cond) (ps : list pyval) : option (row -> bool) :=
  match cs with
  | [] => match ps with
          | [] => Some (fun _ => true)
          | _ :: _ => None
          end
  | c :: cs' =>
      match bind_cond c ps with
      | Some (p, ps') =>
          match bind_conds cs' ps' with
          | Some q => Some (fun r => p r && q r)
          | None => None
          end
      | None => None
      end
  end.

(** The rows the store returns for query [q] with parameters [params],
    or the message of the error it raises. *)
Definition run_select (st : store) (q : select) (params : list pyval)
  : string + DataFrame :=
  match db_failure st with
  | Some msg => inl msg
  | None =>
      match from_rows st (sel_from q) with
      | None => inl "relation does not exist"
      | Some envs =>
          match bind_conds (match sel_where q with Some cs => cs | None => [] end) params with
          | None => inl "invalid query parameter"
          | Some pred =>
              match limit_count (sel_limit q) with
              | None => inl "invalid LIMIT"
              | Some lim =>
                  let rows := filter pred envs in
                  inr (take lim
                         match sel_group q with
                         | Some g =>
                             order_rows (sel_order q)
                               (map (eval_items (sel_items q)) (group_rows g rows))
                         | None =>
                             if existsb is_aggregate (sel_items q)
                             then [eval_items (sel_items q) rows]
                             else map (fun r => eval_items (sel_items q) [r])
                                      (order_rows (sel_order q) rows)
                         end)
              end
          end
      end
  end.

(** [execute_query]: the store's failure is caught here, noted with
    [st.error], and an empty DataFrame is returned. *)
Definition execute_query (st : store) (q : select) (params : list pyval)
  : M DataFrame :=
  match run_select st q params with
  | inr df => ret df
  | inl e => st_error ("Ошибка БД: " +++ e) ;;; ret []
  end.


(** ** Arithmetic on floats *)

Definition f_add (a b : float64) : float64 :=
  match a, b with
  | NaN, _ | _, NaN => NaN
  | Fin x, Fin y => Fin (x + y)
  | PInf, NInf | NInf, PInf => NaN
  | PInf, _ | _, PInf => PInf
  | NInf, _ | _, NInf => NInf
  end.

Definition f_neg (a : float64) : float64 :=
  match a with
  | Fin x => Fin (- x)
  | PInf => NInf
  | NInf => PInf
  | NaN => NaN
  end.

Definition f_sub (a b : float64) : float64 := f_add a (f_neg b).

Definition f_mul (a b : float64) : float64 :=
  match a, b with
  | NaN, _ | _, NaN => NaN
  | Fin x, Fin y => Fin (x * y)
  | Fin x, PInf | PInf, Fin x =>
      match x ?= 0 with Eq => NaN | Gt => PInf | Lt => NInf end
  | Fin x, NInf | NInf, Fin x =>
      match x ?= 0 with Eq => NaN | Gt => NInf | Lt => PInf end
  | PInf, PInf | NInf, NInf => PInf
  | PInf, NInf | NInf, PInf => NInf
  end%Q.

(** Division of numpy scalars: a zero divisor gives an infinity or NaN. *)
Definition f_div (a b : float64) : float64 :=
  match a, b with
  | NaN, _ | _, NaN => NaN
  | Fin x, Fin y =>
      if Qeq_bool y 0
      then match x ?= 0 with Eq => NaN | Gt => PInf | Lt => NInf end
      else Fin (x / y)
  | Fin _, PInf | Fin _, NInf => Fin 0
  | PInf, Fin y => if Qle_bool 0 y then PInf else NInf
  | NInf, Fin y => if Qle_bool 0 y then NInf else PInf
  | _, _ => NaN
  end%Q.

Definition f_leb (a b : float64) : bool :=
  match a, b with
  | NaN, _ | _, NaN => false
  | NInf, _ | _, PInf => true
  | Fin x, Fin y => Qle_bool x y
  | _, _ => false
  end.

Definition round_half_even (q : Q) : Z :=
  let f := Qfloor q in
  match (q - inject_Z f ?= 1 # 2)%Q with
  | Lt => f
  | Gt => f + 1
  | Eq => if Z.even f then f else f + 1
  end.

(** [round(x, 1)] *)
Definition round1 (q : Q) : Q := (inject_Z (round_half_even (q * 10)) / 10)%Q.

Definition f_round1 (a : float64) : float64 :=
  match a with
  | Fin q => Fin (round1 q)
  | _ => a
  end.

Definition is_nan (a : float64) : bool :=
  match a with
  | NaN => true
  | _ => false
  end.

(** [Series.min()], [Series.max()] and [Series.mean()]: NaN entries are
    skipped, and the result is NaN when nothing is left. *)
Definition series_min (fs : list float64) : float64 :=
  match filter (fun a => negb (is_nan a)) fs with
  | [] => NaN
  | x :: xs => fold_left (fun m y => if f_leb y m then y else m) xs x
  end.

Definition series_max (fs : list float64) : float64 :=
  match filter (fun a => negb (is_nan a)) fs with
  | [] => NaN
  | x :: xs => fold_left (fun m y => if f_leb m y then y else m) xs x
  end.

Definition series_mean (fs : list float64) : float64 :=
  match filter (fun a => negb (is_nan a)) fs with
  | [] => NaN
  | xs => f_div (fold_left f_add xs (Fin 0))
                (Fin (inject_Z (Z.of_nat (List.length xs))))
  end.

(** A cell of a numeric column as pandas holds it: NULL is NaN. *)
Definition cell_float (c : cell) : float64 :=
  match cell_num c with
  | Some q => Fin q
  | None => NaN
  end.

Definition obj_of_pyval (v : pyval) : pyobj :=
  match v with
  | PNone => ONone
  | PBool b => OBool b
  | PInt z => OInt z
  | PStr s => OStr s
  end.

Definition obj_of_kwargs (d : kwargs) : pyobj :=
  ODict (map (fun kv => (fst kv, obj_of_pyval (snd kv))) d).

(** ** The Data Access Layer *)

(** [if v: conditions.append(c); params.extend(ps)] *)
Definition add_filter (v : pyval) (c : cond) (ps : list pyval)
    (acc : list cond * list pyval) : list cond * list pyval :=
  if truthy v then (fst acc ++ [c], snd acc ++ ps) else acc.

(** The f-string that wraps a value in two percent signs. *)
Definition like_param (v : pyval) : pyval := PStr ("%" +++ py_str v +++ "%").

Definition date_range (date_from date_to : pyval)
    (acc : list cond * list pyval) : list cond * list pyval :=
  add_filter date_to (CondLe "doc_date") [date_to]
    (add_filter date_from (CondGe "doc_date") [date_from] acc).

(** [df.iloc[0].to_dict() if not df.empty else {}] *)
Definition first_record (df : DataFrame) : pyobj :=
  match df with
  | r :: _ => obj_of_row r
  | [] => ODict []
  end.

Definition purchases_filters (query supplier date_from date_to : pyval)
  : list cond * list pyval :=
  date_range date_from date_to
    (add_filter supplier (CondIlike "contractor_name") [like_param supplier]
       (add_filter query (CondIlikeOr "nomenclature_name" "contractor_name")
          [like_param query; like_param query]
          ([CondTrue], []))).

Definition purchases_sql (conditions : list cond) (limit : pyval) : select :=
  {| sel_items := [ICol "doc_date"; ICol "doc_number"; ICol "contractor_name";
                   ICol "nomenclature_name"; ICol "quantity"; ICol "price";
                   ICol "sum_total"];
     sel_from := FTable "purchase_prices";
     sel_where := Some conditions;
     sel_group := None;
     sel_order := Some ("doc_date", true);
     sel_limit := Some limit |}.

Definition purchases_stats_sql (conditions : list cond) : select :=
  {| sel_items := [ICountStar "total_records";
                   ICountDistinct "contractor_name" "suppliers";
                   ICountDistinct "nomenclature_name" "products";
                   ICoalesceSum "sum_total" "total_sum";
                   IMin "doc_date" "min_date"; IMax "doc_date" "max_date"];
     sel_from := FTable "purchase_prices";
     sel_where := Some conditions;
     sel_group := None;
     sel_order := None;
     sel_limit := None |}.

Definition search_purchases (st : store)
    (query supplier date_from date_to limit : pyval) : M pyobj :=
  let (conditions, params) := purchases_filters query supplier date_from date_to in
  let sql := purchases_sql conditions limit in
  df <- execute_query st sql params ;;
  stats_df <- execute_query st (purchases_stats_sql conditions) params ;;
  ret (ODict [("type", OStr "purchases");
              ("data", to_records df);
              ("stats", first_record stats_df);
              ("query_used", OStr (render sql))]).

Definition sales_filters (query client doc_type date_from date_to : pyval)
  : list cond * list pyval :=
  date_range date_from date_to
    (add_filter doc_type (CondEq "doc_type") [doc_type]
       (add_filter client (CondIlike "client_name") [like_param client]
          (add_filter query (CondIlikeOr "nomenclature_name" "client_name")
             [like_param query; like_param query]
             ([CondTrue], [])))).

Definition sales_sql (conditions : list cond) (limit : pyval) : select :=
  {| sel_items := [ICol "doc_type"; ICol "doc_date"; ICol "doc_number";
                   ICol "client_name"; ICol "nomenclature_name"; ICol "quantity";
                   ICol "price"; ICol "sum_with_vat"];
     sel_from := FTable "sales";
     sel_where := Some conditions;
     sel_group := None;
     sel_order := Some ("doc_date", true);
     sel_limit := Some limit |}.

Definition sales_stats_sql (conditions : list cond) : select :=
  {| sel_items := [ICountStar "total_records";
                   ICountDistinct "client_name" "clients";
                   ICoalesceSumCase "doc_type" "Реализация" "sum_with_vat" "sales_sum";
                   ICoalesceSumCase "doc_type" "Корректировка" "sum_with_vat"
                     "corrections_sum"];
     sel_from := FTable "sales";
     sel_where := Some conditions;
     sel_group := None;
     sel_order := None;
     sel_limit := None |}.

Definition search_sales (st : store)
    (query client doc_type date_from date_to limit : pyval) : M pyobj :=
  let (conditions, params) := sales_filters query client doc_type date_from date_to in
  df <- execute_query st (sales_sql conditions limit) params ;;
  stats_df <- execute_query st (sales_stats_sql conditions) params ;;
  ret (ODict [("type", OStr "sales");
              ("data", to_records df);
              ("stats", first_record stats_df)]).

Definition nomenclature_filters (query : pyval) : list cond * list pyval :=
  add_filter query (CondIlikeOr "n.name" "n.article")
    [like_param query; like_param query]
    ([CondBoolLit "n.is_folder" false], []).

Definition nomenclature_sql (conditions : list cond) (limit : pyval) : select :=
  {| sel_items := [ICol "n.name"; ICol "n.article"; ICol "n.code";
                   IColAs "nt.name" "type_name"];
     sel_from := FLeftJoin "nomenclature" "n" "nomenclature_types" "nt" "type_id" "id";
     sel_where := Some conditions;
     sel_group := None;
     sel_order := Some ("n.name", false);
     sel_limit := Some limit |}.

Definition search_nomenclature (st : store) (query limit : pyval) : M pyobj :=
  let (conditions, params) := nomenclature_filters query in
  df <- execute_query st (nomenclature_sql conditions limit) params ;;
  ret (ODict [("type", OStr "nomenclature");
              ("data", to_records df);
              ("total_found", OInt (Z.of_nat (List.length df)))]).

Definition clients_filters (query : pyval) : list cond * list pyval :=
  add_filter query (CondIlikeOr "name" "inn")
    [like_param query; like_param query]
    ([CondTrue], []).

Definition clients_sql (conditions : list cond) (limit : pyval) : select :=
  {| sel_items := [ICol "name"; ICol "inn"];
     sel_from := FTable "clients";
     sel_where := Some conditions;
     sel_group := None;
     sel_order := Some ("name", false);
     sel_limit := Some limit |}.

Definition search_clients (st : store) (query limit : pyval) : M pyobj :=
  let (conditions, params) := clients_filters query in
  df <- execute_query st (clients_sql conditions limit) params ;;
  ret (ODict [("type", OStr "clients");
              ("data", to_records df);
              ("total_found", OInt (Z.of_nat (List.length df)))]).

Definition price_dynamics_sql : select :=
  {| sel_items := [ICol "doc_date"; ICol "contractor_name"; ICol "price";
                   ICol "quantity"];
     sel_from := FTable "purchase_prices";
     sel_where := Some [CondIlike "nomenclature_name"];
     sel_group := None;
     sel_order := Some ("doc_date", false);
     sel_limit := None |}.

(** The [stats] dict of [get_price_dynamics] for a DataFrame whose first
    row is [r0] and whose last row is [rn]. *)
Definition price_stats (df : DataFrame) (r0 rn : row) : pyobj :=
  let price := map (fun r => cell_float (lookup "price" r)) df in
  let first_price := cell_float (lookup "price" r0) in
  let last_price := cell_float (lookup "price" rn) in
  ODict [("min_price", OFloat (series_min price));
         ("max_price", OFloat (series_max price));
         ("avg_price", OFloat (series_mean price));
         ("first_price", OFloat first_price);
         ("last_price", OFloat last_price);
         ("price_change_pct",
          OFloat (f_round1
                    (f_mul (f_div (f_sub last_price first_price) first_price)
                           (Fin 100))))].

Definition get_price_dynamics (st : store) (nomenclature : pyval) : M pyobj :=
  df <- execute_query st price_dynamics_sql [like_param nomenclature] ;;
  match df with
  | [] =>
      ret (ODict [("type", OStr "price_dynamics");
                  ("data", OList []);
                  ("message", OStr "Данные не найдены")])
  | r0 :: _ =>
      ret (ODict [("type", OStr "price_dynamics");
                  ("nomenclature", obj_of_pyval nomenclature);
                  ("data", to_records df);
                  ("stats", price_stats df r0 (last df r0))])
  end.

Definition top_filters (date_from date_to : pyval) : list cond * list pyval :=
  date_range date_from date_to ([CondTextLit "doc_type" "Реализация"], []).

Definition top_clients_sql (conditions : list cond) (limit : pyval) : select :=
  {| sel_items := [ICol "client_name"; ISum "sum_with_vat" "total_sum";
                   ICountDistinct "doc_number" "orders_count"];
     sel_from := FTable "sales";
     sel_where := Some conditions;
     sel_group := Some "client_name";
     sel_order := Some ("total_sum", true);
     sel_limit := Some limit |}.

Definition get_top_clients (st : store) (date_from date_to limit : pyval)
  : M pyobj :=
  let (conditions, params) := top_filters date_from date_to in
  df <- execute_query st (top_clients_sql conditions limit) params ;;
  ret (ODict [("type", OStr "top_clients"); ("data", to_records df)]).

Definition top_products_sql (conditions : list cond) (limit : pyval) : select :=
  {| sel_items := [ICol "nomenclature_name"; ISum "quantity" "total_qty";
                   ISum "sum_with_vat" "total_sum"];
     sel_from := FTable "sales";
     sel_where := Some conditions;
     sel_group := Some "nomenclature_name";
     sel_order := Some ("total_sum", true);
     sel_limit := Some limit |}.

Definition get_top_products (st : store) (date_from date_to limit : pyval)
  : M pyobj :=
  let (conditions, params) := top_filters date_from date_to in
  df <- execute_query st (top_products_sql conditions limit) params ;;
  ret (ODict [("type", OStr "top_products"); ("data", to_records df)]).

Definition summary_purchases_sql : select :=
  {| sel_items := [ICountStar "cnt"; ICoalesceSum "sum_total" "total";
                   IMin "doc_date" "min_date"; IMax "doc_date" "max_date"];
     sel_from := FTable "purchase_prices";
     sel_where := None;
     sel_group := None;
     sel_order := None;
     sel_limit := None |}.

Definition summary_sales_sql : select :=
  {| sel_items := [ICountStar "cnt";
                   ICoalesceSumCase "doc_type" "Реализация" "sum_with_vat" "sales_total";
                   ICoalesceSumCase "doc_type" "Корректировка" "sum_with_vat" "corr_total";
                   IMin "doc_date" "min_date"; IMax "doc_date" "max_date"];
     sel_from := FTable "sales";
     sel_where := None;
     sel_group := None;
     sel_order := None;
     sel_limit := None |}.

Definition summary_nomenclature_sql : select :=
  {| sel_items := [ICountStar "cnt"];
     sel_from := FTable "nomenclature";
     sel_where := Some [CondBoolLit "is_folder" false];
     sel_group := None;
     sel_order := None;
     sel_limit := None |}.

Definition summary_clients_sql : select :=
  {| sel_items := [ICountStar "cnt"];
     sel_from := FTable "clients";
     sel_where := None;
     sel_group := None;
     sel_order := None;
     sel_limit := None |}.

(** [df.iloc[0]]: raises IndexError on an empty DataFrame. *)
Definition iloc0 (df : DataFrame) : M row :=
  match df with
  | r :: _ => ret r
  | [] => raise (IndexError "single positional indexer is out-of-bounds")
  end.

(** [int(c)] and [float(c)] of a cell. *)
Definition int_of_cell (c : cell) : M Z :=
  match c with
  | CInt z => ret z
  | CNum q => ret (Z.quot (Qnum q) (Zpos (Qden q)))
  | CBool b => ret (if b then 1 else 0)
  | _ => raise (TypeError "int() argument must be a string, a bytes-like object or a real number")
  end.

Definition float_of_cell (c : cell) : M float64 :=
  match c with
  | CInt z => ret (Fin (inject_Z z))
  | CNum q => ret (Fin q)
  | CBool b => ret (Fin (if b then 1 else 0))
  | _ => raise (TypeError "float() argument must be a string or a real number")
  end.

(** [str(c)] of a cell, as an f-string field formats it. *)
Definition cell_str (c : cell) : string :=
  match c with
  | CNull => "None"
  | CBool true => "True"
  | CBool false => "False"
  | CInt z => str_of_Z z
  | CNum q => num_str q
  | CText s => s
  | CDate d => date_str d
  end.

Definition period (r : row) : string :=
  cell_str (lookup "min_date" r) +++ " — " +++ cell_str (lookup "max_date" r).

Definition get_summary_stats (st : store) : M pyobj :=
  purchases <- execute_query st summary_purchases_sql [] ;;
  sales_df <- execute_query st summary_sales_sql [] ;;
  nom_count <- execute_query st summary_nomenclature_sql [] ;;
  clients_count <- execute_query st summary_clients_sql [] ;;
  p <- iloc0 purchases ;;
  p_records <- int_of_cell (lookup "cnt" p) ;;
  p_total <- float_of_cell (lookup "total" p) ;;
  s <- iloc0 sales_df ;;
  s_records <- int_of_cell (lookup "cnt" s) ;;
  s_sales <- float_of_cell (lookup "sales_total" s) ;;
  s_corr <- float_of_cell (lookup "corr_total" s) ;;
  n <- iloc0 nom_count ;;
  n_cnt <- int_of_cell (lookup "cnt" n) ;;
  c <- iloc0 clients_count ;;
  c_cnt <- int_of_cell (lookup "cnt" c) ;;
  ret (ODict [("type", OStr "summary");
              ("purchases",
               ODict [("records", OInt p_records);
                      ("total_sum", OFloat p_total);
                      ("period", OStr (period p))]);
              ("sales",
               ODict [("records", OInt s_records);
                      ("sales_sum", OFloat s_sales);
                      ("corrections_sum", OFloat s_corr);
                      ("period", OStr (period s))]);
              ("nomenclature_count", OInt n_cnt);
              ("clients_count", OInt c_cnt)]).

(** ** The capability registry and the dispatcher *)

(** The names of the entries of [TOOLS], in order. *)
Definition TOOLS : list string :=
  ["search_purchases"; "search_sales"; "search_nomenclature"; "search_clients";
   "get_price_dynamics"; "get_top_clients"; "get_top_products";
   "get_summary_stats"].

(** Binding the entries of a dict to the parameters of [fname]: a key
    that names no parameter raises TypeError. *)
Fixpoint check_keywords (fname : string) (allowed : list string) (d : kwargs)
  : M unit :=
  match d with
  | [] => ret tt
  | (k, _) :: d' =>
      if existsb (String.eqb k) allowed
      then check_keywords fname allowed d'
      else raise (TypeError (fname +++ "() got an unexpected keyword argument '"
                             +++ k +++ "'"))
  end.

(** A parameter without default. *)
Definition required (fname : string) (d : kwargs) (k : string) : M pyval :=
  match kw_find d k with
  | Some v => ret v
  | None => raise (TypeError (fname +++ "() missing 1 required positional argument: '"
                              +++ k +++ "'"))
  end.

(** The body of the [try] block of [execute_tool] up to the value of
    [result]. *)
Definition dispatch (st : store) (tool_name : string) (tool_input : kwargs)
  : M pyobj :=
  if String.eqb tool_name "search_purchases" then
    check_keywords "search_purchases"
      ["query"; "supplier"; "date_from"; "date_to"; "limit"] tool_input ;;;
    search_purchases st (kw tool_input "query" PNone) (kw tool_input "supplier" PNone)
      (kw tool_input "date_from" PNone) (kw tool_input "date_to" PNone)
      (kw tool_input "limit" (PInt 20))
  else if String.eqb tool_name "search_sales" then
    check_keywords "search_sales"
      ["query"; "client"; "doc_type"; "date_from"; "date_to"; "limit"] tool_input ;;;
    search_sales st (kw tool_input "query" PNone) (kw tool_input "client" PNone)
      (kw tool_input "doc_type" PNone) (kw tool_input "date_from" PNone)
      (kw tool_input "date_to" PNone) (kw tool_input "limit" (PInt 20))
  else if String.eqb tool_name "search_nomenclature" then
    check_keywords "search_nomenclature" ["query"; "limit"] tool_input ;;;
    search_nomenclature st (kw tool_input "query" PNone) (kw tool_input "limit" (PInt 30))
  else if String.eqb tool_name "search_clients" then
    check_keywords "search_clients" ["query"; "limit"] tool_input ;;;
    search_clients st (kw tool_input "query" PNone) (kw tool_input "limit" (PInt 30))
  else if String.eqb tool_name "get_price_dynamics" then
    check_keywords "get_price_dynamics" ["nomenclature"] tool_input ;;;
    nomenclature <- required "get_price_dynamics" tool_input "nomenclature" ;;
    get_price_dynamics st nomenclature
  else if String.eqb tool_name "get_top_clients" then
    check_keywords "get_top_clients" ["date_from"; "date_to"; "limit"] tool_input ;;;
    get_top_clients st (kw tool_input "date_from" PNone) (kw tool_input "date_to" PNone)
      (kw tool_input "limit" (PInt 10))
  else if String.eqb tool_name "get_top_products" then
    check_keywords "get_top_products" ["date_from"; "date_to"; "limit"] tool_input ;;;
    get_top_products st (kw tool_input "date_from" PNone) (kw tool_input "date_to" PNone)
      (kw tool_input "limit" (PInt 10))
  else if String.eqb tool_name "get_summary_stats" then
    get_summary_stats st
  else
    ret (ODict [("error", OStr ("Неизвестный инструмент: " +++ tool_name))]).

Definition error_payload (msg : string) : pyobj := ODict [("error", OStr msg)].

Definition execute_tool (st : store) (tool_name : string) (tool_input : kwargs)
  : M string :=
  try_except
    (result <- dispatch st tool_name tool_input ;;
     ret (json_dumps result))
    (fun e => ret (json_dumps (error_payload (exn_str e)))).

(** ** The orchestrator *)

Inductive block : Type :=
| TextBlock (text : string)
| ToolUseBlock (id name : string) (input : kwargs)
| OtherBlock.

Record response : Type := {
  stop_reason : string;
  content : list block
}.

Record tool_result : Type := {
  tool_use_id : string;
  result_content : string
}.

Inductive turn_content : Type :=
| Plain (text : string)
| Blocks (bs : list block)
| ToolResults (rs : list tool_result).

Record message : Type := {
  role : string;
  msg_content : turn_content
}.

(** An entry of [tools_used]. *)
Record tool_log : Type := {
  log_name : string;
  log_input : kwargs;
  output_preview : string
}.

Definition is_tool_use (b : block) : bool :=
  match b with
  | ToolUseBlock _ _ _ => true
  | _ => false
  end.

(** [[block for block in response.content if block.type == "tool_use"]] *)
Definition tool_calls (r : response) : list block := filter is_tool_use (content r).

Definition block_ids (bs : list block) : list string :=
  flat_map (fun b => match b with
                     | ToolUseBlock id _ _ => [id]
                     | _ => []
                     end) bs.

Definition preview (s : string) : string :=
  if (500 <? String.length s)%nat then substring 0 500 s +++ "..." else s.

(** The [for tool_call in tool_calls] loop: [db k] is the store as the
    [k]-th tool execution of this call finds it. *)
Fixpoint run_tool_calls (db : nat -> store) (calls : list block)
    (tools_used : list tool_log) (tool_results : list tool_result)
  : M (list tool_log * list tool_result) :=
  match calls with
  | [] => ret (tools_used, tool_results)
  | ToolUseBlock id name input :: calls' =>
      out <- execute_tool (db (List.length tools_used)) name input ;;
      run_tool_calls db calls'
        (tools_used ++ [{| log_name := name; log_input := input;
                           output_preview := preview out |}])
        (tool_results ++ [{| tool_use_id := id; result_content := out |}])
  | _ :: calls' => run_tool_calls db calls' tools_used tool_results
  end.

(** The text of the final answer. *)
Definition final_text (r : response) : string :=
  fold_left (fun acc b => match b with
                          | TextBlock t => acc +++ t
                          | _ => acc
                          end) (content r) "".

Definition is_tool_stop (r : response) : bool := String.eqb (stop_reason r) "tool_use".

(** The state of the loop: the request counter, [messages], [tools_used]. *)
Record loop_state : Type := {
  requests : nat;
  messages : list message;
  tools_used : list tool_log
}.

(** The branch of the loop body taken on stop reason "tool_use". *)
Definition tool_round (db : nat -> store) (s : loop_state) (r : response)
  : M loop_state :=
  let calls := tool_calls r in
  let messages1 := messages s ++ [{| role := "assistant"; msg_content := Blocks (content r) |}] in
  ur <- run_tool_calls db calls (tools_used s) [] ;;
  ret {| requests := S (requests s);
         messages := messages1 ++ [{| role := "user"; msg_content := ToolResults (snd ur) |}];
         tools_used := fst ur |}.

(** What a call of [get_ai_response] comes to: it returned the answer and
    the log (the final transcript is kept beside them), or it is still
    looping when the fuel is used up. *)
Inductive run : Type :=
| Returned (final_response : string) (used : list tool_log) (transcript : list message)
| Looping.

(** The [while True] loop.  [model k msgs] is the response of the model
    provider to the [k]-th request of this call, sent with transcript
    [msgs]. *)
Fixpoint ai_loop (model : nat -> list message -> response) (db : nat -> store)
    (fuel : nat) (s : loop_state) : M run :=
  match fuel with
  | O => ret Looping
  | S fuel' =>
      let r := model (requests s) (messages s) in
      if is_tool_stop r
      then s' <- tool_round db s r ;; ai_loop model db fuel' s'
      else ret (Returned (final_text r) (tools_used s) (messages s))
  end.

Definition initial_state (user_message : string) (chat_history : list message)
  : loop_state :=
  {| requests := O;
     messages := chat_history ++ [{| role := "user"; msg_content := Plain user_message |}];
     tools_used := [] |}.

Definition get_ai_response (model : nat -> list message -> response)
    (db : nat -> store) (fuel : nat)
    (user_message : string) (chat_history : list message) : M run :=
  ai_loop model db fuel (initial_state user_message chat_history).

(** ** Notions the statements use *)

(** The loop state one round later (the state itself should the round
    raise, which [tool_round_returns] below excludes). *)
Definition next_state (model : nat -> list message -> response) (db : nat -> store)
    (s : loop_state) : loop_state :=
  match outcome (tool_round db s (model (requests s) (messages s))) with
  | inr s' => s'
  | inl _ => s
  end.

(** The loop state at the [k]-th request, should the loop get there. *)
Fixpoint state_at (model : nat -> list message -> response) (db : nat -> store)
    (s0 : loop_state) (k : nat) : loop_state :=
  match k with
  | O => s0
  | S k' => next_state model db (state_at model db s0 k')
  end.

(** The response to the [k]-th request. *)
Definition response_at (model : nat -> list message -> response) (db : nat -> store)
    (s0 : loop_state) (k : nat) : response :=
  let s := state_at model db s0 k in
  model (requests s) (messages s).

(** Turns appended by invocation rounds: each assistant turn is followed
    at once by one tool-result turn that answers the identifiers of its
    tool-use blocks, one result each and in their order. *)
Inductive paired : list message -> Prop :=
| paired_nil : paired []
| paired_round (bs : list block) (rs : list tool_result) (rest : list message) :
    map tool_use_id rs = block_ids bs ->
    paired rest ->
    paired ({| role := "assistant"; msg_content := Blocks bs |}
            :: {| role := "user"; msg_content := ToolResults rs |} :: rest).

(** A model that asks for tools [n] times and then answers. *)
Definition asks_n_times (n : nat) (k : nat) (_ : list message) : response :=
  if (k <? n)%nat
  then {| stop_reason := "tool_use"; content := [] |}
  else {| stop_reason := "end_turn"; content := [] |}.

(** The records under the key [data] of the payload an operation
    returned (none when it raised). *)
Definition data_of (m : M pyobj) : list pyobj :=
  match outcome m with
  | inr o => match field o "data" with
             | Some (OList l) => l
             | _ => []
             end
  | inl _ => []
  end.

(** The query texts of the operations, as functions of their arguments. *)
Definition search_purchases_text (query supplier date_from date_to limit : pyval)
  : string :=
  render (purchases_sql (fst (purchases_filters query supplier date_from date_to)) limit).





Definition search_clients_text (query limit : pyval) : string :=
  render (clients_sql (fst (clients_filters query)) limit).



(** The DataFrame [execute_query] returns. *)
Definition frame (st : store) (q : select) (params : list pyval) : DataFrame :=
  match run_select st q params with
  | inr df => df
  | inl _ => []
  end.

(** The pattern of a substring filter on value [v]: the value between
    two percent signs. *)
Definition contains_pattern (v : pyval) : list like_tok :=
  match ilike_tokens ("%" +++ py_str v +++ "%") with
  | Some ts => ts
  | None => []
  end.






(** The percentage change from [first] to [last] as numpy computes it. *)
Definition price_change_pct (first last : Q) : float64 :=
  if Qeq_bool first 0
  then match (last ?= first)%Q with
       | Eq => NaN
       | Gt => PInf
       | Lt => NInf
       end
  else Fin (round1 ((last - first) / first * 100)).


(** *** Filters of the two search operations *)

(** A filter that was not supplied (or is empty) imposes no constraint. *)
Definition when_given (v : pyval) (test : bool) : bool :=
  if truthy v then test else true.

(** The bound a date argument stands for: [Some None] when it is not
    supplied, [Some (Some d)] when it denotes day [d], and [None] when it
    is supplied and is no date (the store then rejects the query). *)
Definition date_bound (v : pyval) : option (option Z) :=
  if truthy v
  then match v with
       | PStr s => option_map Some (parse_date s)
       | _ => None
       end
  else Some None.

Definition on_or_after (bound : option Z) (d : Z) : bool :=
  match bound with
  | Some a => a <=? d
  | None => true
  end.

Definition on_or_before (bound : option Z) (d : Z) : bool :=
  match bound with
  | Some b => d <=? b
  | None => true
  end.

(** The predicate [search_purchases] selects by. *)
Definition purchase_selected (query supplier : pyval) (date_from date_to : option Z)
    (p : purchase) : bool :=
  when_given query (ilike (p_nomenclature_name p) (contains_pattern query)
                    || ilike (p_contractor_name p) (contains_pattern query))
  && when_given supplier (ilike (p_contractor_name p) (contains_pattern supplier))
  && on_or_after date_from (p_doc_date p)
  && on_or_before date_to (p_doc_date p).

(** A supplied document type has to be a text. *)
Definition doc_type_ok (v : pyval) : bool :=
  if truthy v
  then match v with
       | PStr _ => true
       | _ => false
       end
  else true.

(** The predicate [search_sales] selects by. *)
Definition sale_selected (query client doc_type : pyval) (date_from date_to : option Z)
    (x : sale) : bool :=
  when_given query (ilike (s_nomenclature_name x) (contains_pattern query)
                    || ilike (s_client_name x) (contains_pattern query))
  && when_given client (ilike (s_client_name x) (contains_pattern client))
  && when_given doc_type (String.eqb (s_doc_type x) (py_str doc_type))
  && on_or_after date_from (s_doc_date x)
  && on_or_before date_to (s_doc_date x).

Definition newest_purchases_first (ps : list purchase) : list purchase :=
  sort_by (fun a b => p_doc_date b <=? p_doc_date a) ps.

Definition newest_sales_first (xs : list sale) : list sale :=
  sort_by (fun a b => s_doc_date b <=? s_doc_date a) xs.

(** The rows [search_purchases] returns for limit [n]. *)
Definition purchases_found (st : store) (query supplier date_from date_to : pyval)
    (n : nat) : list row :=
  match date_bound date_from, date_bound date_to with
  | Some a, Some b =>
      firstn n (map purchase_row
                  (newest_purchases_first
                     (filter (purchase_selected query supplier a b)
                             (purchase_prices st))))
  | _, _ => []
  end.

(** The rows [search_sales] returns for limit [n]. *)
Definition sales_found (st : store) (query client doc_type date_from date_to : pyval)
    (n : nat) : list row :=
  if doc_type_ok doc_type
  then match date_bound date_from, date_bound date_to with
       | Some a, Some b =>
           firstn n (map sale_row
                       (newest_sales_first
                          (filter (sale_selected query client doc_type a b)
                                  (sales st))))
       | _, _ => []
       end
  else [].




(** *** Leaderboards *)

(** The names of a list, each once, in the order of first appearance. *)
Fixpoint distinct (l : list string) : list string :=
  match l with
  | [] => []
  | x :: l' => x :: filter (fun y => negb (String.eqb x y)) (distinct l')
  end.

(** A sale counts for the leaderboards when it is a realisation dated
    within the bounds. *)
Definition realised (a b : option Z) (x : sale) : bool :=
  String.eqb (s_doc_type x) "Реализация"
  && on_or_after a (s_doc_date x)
  && on_or_before b (s_doc_date x).

(** The sales of the entity called [name]. *)
Definition sales_of (key : sale -> string) (name : string) (xs : list sale)
  : list sale :=
  filter (fun x => String.eqb (key x) name) xs.

(** The row of client [name]: the sum of the totals with tax of its
    sales and the number of its distinct documents. *)
Definition client_entry (xs : list sale) (name : string) : row :=
  [("client_name", CText name);
   ("total_sum", CNum (sum_q (map s_sum_with_vat (sales_of s_client_name name xs))));
   ("orders_count",
    CInt (Z.of_nat (List.length
                      (distinct (map s_doc_number (sales_of s_client_name name xs))))))].

(** The row of product [name]: the sum of the quantities and the sum of
    the totals with tax of its sales. *)
Definition product_entry (xs : list sale) (name : string) : row :=
  [("nomenclature_name", CText name);
   ("total_qty", CNum (sum_q (map s_quantity (sales_of s_nomenclature_name name xs))));
   ("total_sum",
    CNum (sum_q (map s_sum_with_vat (sales_of s_nomenclature_name name xs))))].

(** One row per entity that has a sale in [xs]. *)
Definition client_board (xs : list sale) : list row :=
  map (client_entry xs) (distinct (map s_client_name xs)).

Definition product_board (xs : list sale) : list row :=
  map (product_entry xs) (distinct (map s_nomenclature_name xs)).

Definition by_total_desc (r1 r2 : row) : bool :=
  cell_leb (lookup "total_sum" r2) (lookup "total_sum" r1).


(** The rows [get_top_clients] and [get_top_products] return for limit
    [n]. *)
Definition top_clients_found (st : store) (date_from date_to : pyval) (n : nat)
  : list row :=
  match date_bound date_from, date_bound date_to with
  | Some a, Some b =>
      firstn n (sort_by by_total_desc (client_board (filter (realised a b) (sales st))))
  | _, _ => []
  end.

Definition top_products_found (st : store) (date_from date_to : pyval) (n : nat)
  : list row :=
  match date_bound date_from, date_bound date_to with
  | Some a, Some b =>
      firstn n (sort_by by_total_desc (product_board (filter (realised a b) (sales st))))
  | _, _ => []
  end.


(** A model that asks for two tools, one of them unknown, and then
    answers. *)
Definition sample_model (k : nat) (_ : list message) : response :=
  match k with
  | O => {| stop_reason := "tool_use";
            content := [TextBlock "Looking it up.";
                        ToolUseBlock "toolu_1" "get_top_clients" [("limit", PInt 1)];
                        ToolUseBlock "toolu_2" "get_weather" []] |}
  | S _ => {| stop_reason := "end_turn"; content := [TextBlock "Magnit."] |}
  end.

(** *** Aggregates of the statistics queries *)

(** The smallest and the largest of a list of days. *)
Fixpoint earliest_day (ds : list Z) : option Z :=
  match ds with
  | [] => None
  | d :: ds' => Some match earliest_day ds' with
                     | Some m => Z.min d m
                     | None => d
                     end
  end.

Fixpoint latest_day (ds : list Z) : option Z :=
  match ds with
  | [] => None
  | d :: ds' => Some match latest_day ds' with
                     | Some m => Z.max d m
                     | None => d
                     end
  end.

(** MIN and MAX of a date column: NULL over no rows. *)
Definition date_cell (o : option Z) : cell :=
  match o with
  | Some d => CDate d
  | None => CNull
  end.

(** The row of the statistics query of [search_purchases] over the
    purchases [sel]. *)
Definition purchases_stats (sel : list purchase) : row :=
  [("total_records", CInt (Z.of_nat (List.length sel)));
   ("suppliers",
    CInt (Z.of_nat (List.length (distinct (map p_contractor_name sel)))));
   ("products",
    CInt (Z.of_nat (List.length (distinct (map p_nomenclature_name sel)))));
   ("total_sum", CNum (sum_q (map p_sum_total sel)));
   ("min_date", date_cell (earliest_day (map p_doc_date sel)));
   ("max_date", date_cell (latest_day (map p_doc_date sel)))].

(** The total with tax a sale contributes to the sum of document type
    [doc_type]. *)
Definition amount_of_type (doc_type : string) (x : sale) : Q :=
  if String.eqb (s_doc_type x) doc_type then s_sum_with_vat x else 0%Q.


(** *** The summary *)

(** The period of a date column as [get_summary_stats] prints it. *)
Definition period_of (ds : list Z) : string :=
  cell_str (date_cell (earliest_day ds)) +++ " — " +++ cell_str (date_cell (latest_day ds)).

(** The catalogue entries that are items, not folders. *)
Definition leaf_items (st : store) : list nomenclature_item :=
  filter (fun n => negb (n_is_folder n)) (nomenclature st).

(** The payload of [get_summary_stats] over a reachable store. *)
Definition summary_payload (st : store) : pyobj :=
  ODict [("type", OStr "summary");
         ("purchases",
          ODict [("records", OInt (Z.of_nat (List.length (purchase_prices st))));
                 ("total_sum", OFloat (Fin (sum_q (map p_sum_total (purchase_prices st)))));
                 ("period", OStr (period_of (map p_doc_date (purchase_prices st))))]);
         ("sales",
          ODict [("records", OInt (Z.of_nat (List.length (sales st))));
                 ("sales_sum",
                  OFloat (Fin (sum_q (map (amount_of_type "Реализация") (sales st)))));
                 ("corrections_sum",
                  OFloat (Fin (sum_q (map (amount_of_type "Корректировка") (sales st)))));
                 ("period", OStr (period_of (map s_doc_date (sales st))))]);
         ("nomenclature_count", OInt (Z.of_nat (List.length (leaf_items st))));
         ("clients_count", OInt (Z.of_nat (List.length (clients st))))].

(** *** The two directories *)










(** ** The input schemas of the registry *)

(** A property of an [input_schema]: its name, its JSON type, its
    [enum] and its [default] where the entry has one. *)
Record property : Type := {
  prop_name : string;
  prop_type : string;
  prop_enum : option (list string);
  prop_default : option pyval
}.

(** An entry of [TOOLS]: its name, the properties of its input schema
    in order, and the [required] list. *)
Record tool_schema : Type := {
  schema_name : string;
  properties : list property;
  required_props : list string
}.

Definition string_prop (name : string) : property :=
  {| prop_name := name; prop_type := "string"; prop_enum := None;
     prop_default := None |}.

Definition limit_prop (default : Z) : property :=
  {| prop_name := "limit"; prop_type := "integer"; prop_enum := None;
     prop_default := Some (PInt default) |}.

Definition TOOL_SCHEMAS : list tool_schema :=
  [{| schema_name := "search_purchases";
      properties := [string_prop "query"; string_prop "supplier";
                     string_prop "date_from"; string_prop "date_to"; limit_prop 20];
      required_props := [] |};
   {| schema_name := "search_sales";
      properties := [string_prop "query"; string_prop "client";
                     {| prop_name := "doc_type"; prop_type := "string";
                        prop_enum := Some ["Реализация"; "Корректировка"];
                        prop_default := None |};
                     string_prop "date_from"; string_prop "date_to"; limit_prop 20];
      required_props := [] |};
   {| schema_name := "search_nomenclature";
      properties := [string_prop "query"; limit_prop 30];
      required_props := [] |};
   {| schema_name := "search_clients";
      properties := [string_prop "query"; limit_prop 30];
      required_props := [] |};
   {| schema_name := "get_price_dynamics";
      properties := [string_prop "nomenclature"];
      required_props := ["nomenclature"] |};
   {| schema_name := "get_top_clients";
      properties := [string_prop "date_from"; string_prop "date_to"; limit_prop 10];
      required_props := [] |};
   {| schema_name := "get_top_products";
      properties := [string_prop "date_from"; string_prop "date_to"; limit_prop 10];
      required_props := [] |};
   {| schema_name := "get_summary_stats";
      properties := [];
      required_props := [] |}].

(** The keys of [input] are properties of the schema and every required
    property is among them. *)
Definition conforms (s : tool_schema) (input : kwargs) : bool :=
  forallb (fun kv => existsb (String.eqb (fst kv)) (map prop_name (properties s))) input
  && forallb (fun k => existsb (String.eqb k) (map fst input)) (required_props s).

(** ** The log of a call and the shape of a transcript *)





(** A closed dialogue: user and assistant turns in pairs. *)
Fixpoint dialogue (msgs : list message) : bool :=
  match msgs with
  | [] => true
  | u :: a :: rest =>
      String.eqb (role u) "user" && String.eqb (role a) "assistant" && dialogue rest
  | _ => false
  end.

(** A dialogue with one more user turn, the one to be answered. *)
Fixpoint awaits_reply (msgs : list message) : bool :=
  match msgs with
  | [] => false
  | [u] => String.eqb (role u) "user"
  | u :: a :: rest =>
      String.eqb (role u) "user" && String.eqb (role a) "assistant"
      && awaits_reply rest
  end.

(** ** The session of the chat page *)

(** The part of [st.session_state] that [main] keeps: the conversation,
    the log of tools, and the example question a sidebar button left
    for the next run. *)
Record session : Type := {
  ss_messages : list message;
  ss_tools_log : list tool_log;
  pending_message : option string
}.

Definition plain (r text : string) : message :=
  {| role := r; msg_content := Plain text |}.

(** The end of a run of [main], from the chat input on.  [chat_input]
    is what [st.chat_input] returned and [call] is [get_ai_response] as
    this run finds the model provider and the store; the result is
    [None] when that call does not return.  What is drawn on the page
    is left out. *)
Definition handle_input (call : string -> list message -> M run) (s : session)
    (chat_input : option string) : option session :=
  let user_input := match pending_message s with
                    | Some ex => Some ex
                    | None => chat_input
                    end in
  let s0 := {| ss_messages := ss_messages s; ss_tools_log := ss_tools_log s;
               pending_message := None |} in
  match user_input with
  | None => Some s0
  | Some text =>
      if String.eqb text "" then Some s0
      else
        let messages1 := ss_messages s ++ [plain "user" text] in
        match outcome (call text (removelast messages1)) with
        | inr (Returned response used _) =>
            Some {| ss_messages := messages1 ++ [plain "assistant" response];
                    ss_tools_log := ss_tools_log s ++ used;
                    pending_message := None |}
        | inr Looping => None
        | inl e =>
            Some {| ss_messages :=
                      messages1 ++ [plain "assistant" ("❌ Ошибка: " +++ exn_str e)];
                    ss_tools_log := ss_tools_log s;
                    pending_message := None |}
        end
  end.

(** ** The monad *)

Lemma outcome_bind {A B} (m : M A) (f : A -> M B) :
  outcome (bind m f) =
  match outcome m with
  | inl e => inl e
  | inr a => outcome (f a)
  end.
Proof.
  destruct m as [n [e | a]]; simpl; [reflexivity |].
  destruct (f a); reflexivity.
Qed.

Lemma outcome_try_except {A} (m : M A) (h : exn -> M A) :
  outcome (try_except m h) =
  match outcome m with
  | inl e => outcome (h e)
  | inr a => inr a
  end.
Proof.
  destruct m as [n [e | a]]; simpl; [| reflexivity].
  destruct (h e); reflexivity.
Qed.

Lemma outcome_ret {A} (a : A) : outcome (ret a) = inr a.
Proof. reflexivity. Qed.

(** [execute_query] never raises. *)
Lemma execute_query_returns st q ps :
  outcome (execute_query st q ps) = inr (frame st q ps).
Proof. unfold execute_query, frame. destruct (run_select st q ps); reflexivity. Qed.

(** ** The dispatcher *)

Lemma execute_tool_outcome st name input :
  outcome (execute_tool st name input) =
  inr (json_dumps match outcome (dispatch st name input) with
                  | inr r => r
                  | inl e => error_payload (exn_str e)
                  end).
Proof.
  unfold execute_tool.
  rewrite outcome_try_except, outcome_bind.
  destruct (outcome (dispatch st name input)); reflexivity.
Qed.

Lemma dispatch_unknown st name input :
  ~ In name TOOLS ->
  dispatch st name input =
  ret (error_payload ("Неизвестный инструмент: " +++ name)).
Proof.
  intros Hn. unfold dispatch.
  repeat match goal with
         | |- context [String.eqb name ?s] =>
             destruct (String.eqb_spec name s) as [-> | _];
             [exfalso; apply Hn; simpl; tauto |]
         end.
  reflexivity.
Qed.

(** C5: [execute_tool] never raises.  For every capability name, every
    argument mapping and every state of the store it returns the
    serialisation of a payload: the result of the operation when the
    invocation goes through; the error payload with the message of the
    exception when anything in the try block raised (an argument that
    names no parameter, a missing argument, a failure inside the
    operation); and the unknown-tool error payload when the name is none
    of the eight registered ones. *)
Theorem execute_tool_never_raises st name input :
  exists payload : pyobj,
    outcome (execute_tool st name input) = inr (json_dumps payload)
    /\ (forall r, outcome (dispatch st name input) = inr r -> payload = r)
    /\ (forall e, outcome (dispatch st name input) = inl e ->
                  payload = error_payload (exn_str e))
    /\ (~ In name TOOLS ->
        payload = error_payload ("Неизвестный инструмент: " +++ name)).
Proof.
  exists (match outcome (dispatch st name input) with
          | inr r => r
          | inl e => error_payload (exn_str e)
          end).
  split; [apply execute_tool_outcome |].
  split; [intros r ->; reflexivity |].
  split; [intros e ->; reflexivity |].
  intros Hn. rewrite (dispatch_unknown st name input Hn). reflexivity.
Qed.

(** ** The orchestrator *)


Lemma block_ids_tool_calls r : block_ids (tool_calls r) = block_ids (content r).
Proof.
  unfold tool_calls. induction (content r) as [| b bs IH]; [reflexivity |].
  destruct b; simpl; rewrite ?IH; reflexivity.
Qed.

Lemma run_tool_calls_returns db calls : forall used res,
  exists used' res',
    outcome (run_tool_calls db calls used res) = inr (used', res')
    /\ map tool_use_id res' = map tool_use_id res ++ block_ids calls
    /\ List.length used' = (List.length used + List.length (block_ids calls))%nat.
Proof.
  induction calls as [| b calls IH]; intros used res.
  - exists used, res. simpl. rewrite app_nil_r, Nat.add_0_r. auto.
  - destruct b as [t | id name input |].
    + exact (IH used res).
    + simpl. rewrite outcome_bind, execute_tool_outcome.
      match goal with
      | |- context [run_tool_calls db calls ?u ?r] =>
          destruct (IH u r) as (used' & res' & Hrun & Hids & Hlen)
      end.
      exists used', res'. split; [exact Hrun |]. split.
      * rewrite Hids, map_app, <- app_assoc. reflexivity.
      * rewrite Hlen, length_app. simpl. lia.
    + exact (IH used res).
Qed.

(** A round never raises: it appends the assistant turn and then one
    tool-result turn answering the identifiers of its tool-use blocks. *)
Lemma tool_round_returns db s r :
  exists used rs,
    outcome (tool_round db s r) =
    inr {| requests := S (requests s);
           messages := messages s
                       ++ [{| role := "assistant"; msg_content := Blocks (content r) |};
                           {| role := "user"; msg_content := ToolResults rs |}];
           tools_used := used |}
    /\ map tool_use_id rs = block_ids (content r).
Proof.
  destruct (run_tool_calls_returns db (tool_calls r) (tools_used s) [])
    as (used & rs & Hrun & Hids & _).
  exists used, rs. split.
  - unfold tool_round. rewrite outcome_bind, Hrun. simpl.
    rewrite <- app_assoc. reflexivity.
  - rewrite Hids, block_ids_tool_calls. reflexivity.
Qed.

Lemma next_state_spec model db s :
  outcome (tool_round db s (model (requests s) (messages s)))
  = inr (next_state model db s).
Proof.
  unfold next_state.
  destruct (tool_round_returns db s (model (requests s) (messages s)))
    as (used & rs & H & _).
  rewrite H. reflexivity.
Qed.

Lemma ai_loop_step model db fuel s :
  outcome (ai_loop model db (S fuel) s) =
  if is_tool_stop (model (requests s) (messages s))
  then outcome (ai_loop model db fuel (next_state model db s))
  else inr (Returned (final_text (model (requests s) (messages s)))
                     (tools_used s) (messages s)).
Proof.
  simpl. destruct (is_tool_stop (model (requests s) (messages s))); [| reflexivity].
  rewrite outcome_bind, next_state_spec. reflexivity.
Qed.

Lemma next_state_appends model db s :
  exists rs : list tool_result,
    map tool_use_id rs = block_ids (content (model (requests s) (messages s)))
    /\ messages (next_state model db s) =
       messages s
       ++ [{| role := "assistant";
              msg_content := Blocks (content (model (requests s) (messages s))) |};
           {| role := "user"; msg_content := ToolResults rs |}]
    /\ requests (next_state model db s) = S (requests s).
Proof.
  destruct (tool_round_returns db s (model (requests s) (messages s)))
    as (used & rs & Hround & Hids).
  pose proof (next_state_spec model db s) as H. rewrite Hround in H.
  injection H as H. exists rs. rewrite <- H. simpl. auto.
Qed.

(** C1: pairing of invocations and results.  Whenever the response to a
    request has stop reason "tool_use", the round appends the assistant
    turn holding the response's blocks and, right after it, a single
    tool-result turn whose results carry exactly the identifiers of the
    tool-use blocks of that assistant turn, one result per block and in
    their order; the loop goes on from that transcript, so both turns
    are in it before the next request is issued. *)
Theorem tool_use_round_is_paired model db fuel s :
  is_tool_stop (model (requests s) (messages s)) = true ->
  exists rs : list tool_result,
    map tool_use_id rs = block_ids (content (model (requests s) (messages s)))
    /\ messages (next_state model db s) =
       messages s
       ++ [{| role := "assistant";
              msg_content := Blocks (content (model (requests s) (messages s))) |};
           {| role := "user"; msg_content := ToolResults rs |}]
    /\ requests (next_state model db s) = S (requests s)
    /\ outcome (ai_loop model db (S fuel) s)
       = outcome (ai_loop model db fuel (next_state model db s)).
Proof.
  intros Hstop.
  destruct (next_state_appends model db s) as (rs & Hids & Hm & Hr).
  exists rs. repeat split; try assumption.
  rewrite ai_loop_step, Hstop. reflexivity.
Qed.

(** The whole transcript of a call that returns: the history, the user
    message, then paired rounds only. *)
Lemma ai_loop_transcript_paired model db fuel : forall s f u t,
  outcome (ai_loop model db fuel s) = inr (Returned f u t) ->
  exists rounds, t = messages s ++ rounds /\ paired rounds.
Proof.
  induction fuel as [| fuel IH]; intros s f u t H.
  - discriminate H.
  - rewrite ai_loop_step in H.
    destruct (is_tool_stop (model (requests s) (messages s))) eqn:Hstop.
    + destruct (next_state_appends model db s) as (rs & Hids & Hm & _).
      destruct (IH _ _ _ _ H) as (rounds & Ht & Hp).
      rewrite Hm, <- app_assoc in Ht.
      eexists. split; [exact Ht |].
      simpl. constructor; assumption.
    + injection H as _ _ <-. exists []. rewrite app_nil_r. split; constructor.
Qed.

Lemma state_at_requests model db s0 k :
  requests (state_at model db s0 k) = (requests s0 + k)%nat.
Proof.
  induction k as [| k IH]; simpl; [lia |].
  destruct (next_state_appends model db (state_at model db s0 k)) as (_ & _ & _ & H).
  rewrite H, IH. lia.
Qed.

(** While the responses say "tool_use" the loop runs one round each. *)
Lemma ai_loop_rounds model db s0 k : forall fuel,
  (forall j, (j < k)%nat -> is_tool_stop (response_at model db s0 j) = true) ->
  outcome (ai_loop model db (k + fuel) s0)
  = outcome (ai_loop model db fuel (state_at model db s0 k)).
Proof.
  induction k as [| k IH]; intros fuel Hk; [reflexivity |].
  replace (S k + fuel)%nat with (k + S fuel)%nat by lia.
  rewrite IH by (intros j Hj; apply Hk; lia).
  rewrite ai_loop_step.
  fold (response_at model db s0 k). rewrite Hk by lia. reflexivity.
Qed.

Lemma ai_loop_short model db s0 fuel :
  (forall j, (j < fuel)%nat -> is_tool_stop (response_at model db s0 j) = true) ->
  outcome (ai_loop model db fuel s0) = inr Looping.
Proof.
  intros H. replace fuel with (fuel + 0)%nat at 1 by lia.
  rewrite ai_loop_rounds by exact H. reflexivity.
Qed.

Lemma ai_loop_returns_at model db s0 k fuel :
  (forall j, (j < k)%nat -> is_tool_stop (response_at model db s0 j) = true) ->
  is_tool_stop (response_at model db s0 k) = false ->
  (k < fuel)%nat ->
  outcome (ai_loop model db fuel s0)
  = inr (Returned (final_text (response_at model db s0 k))
                  (tools_used (state_at model db s0 k))
                  (messages (state_at model db s0 k))).
Proof.
  intros Hlt Hk Hfuel.
  replace fuel with (k + S (fuel - S k))%nat by lia.
  rewrite ai_loop_rounds by exact Hlt.
  rewrite ai_loop_step.
  fold (response_at model db s0 k). rewrite Hk. reflexivity.
Qed.

(** The first index at which a boolean sequence is false. *)
Lemma first_false (p : nat -> bool) : forall k,
  p k = false ->
  exists k0, (k0 <= k)%nat /\ p k0 = false /\ forall j, (j < k0)%nat -> p j = true.
Proof.
  induction k as [k IH] using lt_wf_ind. intros Hk.
  destruct (forallb p (seq 0 k)) eqn:Hall.
  - exists k. split; [lia |]. split; [exact Hk |].
    intros j Hj. rewrite forallb_forall in Hall. apply Hall, in_seq. lia.
  - assert (Hex : exists j, (j < k)%nat /\ p j = false).
    { clear - Hall. induction k as [| k IH].
      - discriminate Hall.
      - rewrite seq_S, forallb_app in Hall. simpl in Hall.
        destruct (forallb p (seq 0 k)).
        + exists k. split; [lia |]. destruct (p k); [discriminate | reflexivity].
        + destruct (IH eq_refl) as (j & Hj & Hp). exists j. split; [lia | exact Hp]. }
    destruct Hex as (j & Hj & Hp).
    destruct (IH j Hj Hp) as (k0 & Hle & H0 & Hlt).
    exists k0. split; [lia |]. auto.
Qed.

Lemma ai_loop_returned_stops model db fuel : forall s f u t,
  outcome (ai_loop model db fuel s) = inr (Returned f u t) ->
  exists k, is_tool_stop (response_at model db s k) = false.
Proof.
  induction fuel as [| fuel IH]; intros s f u t H; [discriminate H |].
  rewrite ai_loop_step in H.
  destruct (is_tool_stop (model (requests s) (messages s))) eqn:Hstop.
  - destruct (IH _ _ _ _ H) as (k & Hk). exists (S k).
    unfold response_at in *. 
    assert (Hshift : forall n, state_at model db s (S n)
                               = state_at model db (next_state model db s) n).
    { clear. induction n as [| n IHn]; [reflexivity |].
      change (state_at model db s (S (S n)))
        with (next_state model db (state_at model db s (S n))).
      rewrite IHn. reflexivity. }
    rewrite Hshift. exact Hk.
  - exists O. exact Hstop.
Qed.

(** C3: the loop has no cap on the number of rounds.  It runs one round
    for each response with stop reason "tool_use" and returns at the
    first response with another stop reason, with the text of that
    response and the log gathered so far; hence it returns if and only
    if some response has a stop reason other than "tool_use", and for
    every [n] some model makes it run exactly [n] rounds. *)
Theorem get_ai_response_has_no_round_cap model db user_message chat_history :
  (forall k,
      (forall j, (j < k)%nat ->
         is_tool_stop (response_at model db (initial_state user_message chat_history) j)
         = true) ->
      is_tool_stop (response_at model db (initial_state user_message chat_history) k)
      = false ->
      requests (state_at model db (initial_state user_message chat_history) k) = k
      /\ forall fuel,
          outcome (get_ai_response model db fuel user_message chat_history)
          = if (fuel <=? k)%nat
            then inr Looping
            else inr (Returned
                        (final_text (response_at model db
                                       (initial_state user_message chat_history) k))
                        (tools_used (state_at model db
                                       (initial_state user_message chat_history) k))
                        (messages (state_at model db
                                     (initial_state user_message chat_history) k))))
  /\ ((exists fuel f u t,
          outcome (get_ai_response model db fuel user_message chat_history)
          = inr (Returned f u t))
      <-> (exists k,
              is_tool_stop (response_at model db
                              (initial_state user_message chat_history) k) = false))
  /\ (forall n fuel,
         outcome (get_ai_response (asks_n_times n) db fuel user_message chat_history)
         = if (fuel <=? n)%nat
           then inr Looping
           else inr (Returned ""
                       (tools_used (state_at (asks_n_times n) db
                                      (initial_state user_message chat_history) n))
                       (messages (state_at (asks_n_times n) db
                                    (initial_state user_message chat_history) n)))).
Proof.
  set (s0 := initial_state user_message chat_history).
  assert (Hfirst : forall m k,
      (forall j, (j < k)%nat -> is_tool_stop (response_at m db s0 j) = true) ->
      is_tool_stop (response_at m db s0 k) = false ->
      forall fuel,
        outcome (ai_loop m db fuel s0)
        = if (fuel <=? k)%nat
          then inr Looping
          else inr (Returned (final_text (response_at m db s0 k))
                             (tools_used (state_at m db s0 k))
                             (messages (state_at m db s0 k)))).
  { intros m k Hlt Hk fuel. destruct (Nat.leb_spec fuel k) as [Hle | Hgt].
    - apply ai_loop_short. intros j Hj. apply Hlt. lia.
    - apply ai_loop_returns_at; assumption. }
  split; [| split].
  - intros k Hlt Hk. split.
    + rewrite state_at_requests. reflexivity.
    + intros fuel. apply Hfirst; assumption.
  - split.
    + intros (fuel & f & u & t & H). exact (ai_loop_returned_stops _ _ _ _ _ _ _ H).
    + intros (k & Hk).
      destruct (first_false (fun j => is_tool_stop (response_at model db s0 j)) k Hk)
        as (k0 & _ & H0 & Hlt).
      exists (S k0). do 3 eexists.
      unfold get_ai_response. fold s0. rewrite (Hfirst model k0 Hlt H0).
      destruct (Nat.leb_spec (S k0) k0); [lia | reflexivity].
  - intros n fuel. unfold get_ai_response. fold s0.
    assert (Hresp : forall j, response_at (asks_n_times n) db s0 j
                              = asks_n_times n j []).
    { intros j. unfold response_at. rewrite state_at_requests. reflexivity. }
    rewrite (Hfirst (asks_n_times n) n).
    + rewrite Hresp. unfold asks_n_times. rewrite Nat.ltb_irrefl. reflexivity.
    + intros j Hj. rewrite Hresp. unfold asks_n_times.
      destruct (Nat.ltb_spec j n); [reflexivity | lia].
    + rewrite Hresp. unfold asks_n_times. rewrite Nat.ltb_irrefl. reflexivity.
Qed.

(** ** Store failures *)

Lemma run_select_failure st q ps msg :
  db_failure st = Some msg -> run_select st q ps = inl msg.
Proof. intros H. unfold run_select. rewrite H. reflexivity. Qed.

Lemma execute_query_failure st q ps msg :
  db_failure st = Some msg ->
  execute_query st q ps = (["Ошибка БД: " +++ msg], inr []).
Proof.
  intros H. unfold execute_query. rewrite (run_select_failure st q ps msg H).
  reflexivity.
Qed.

(** With the store down seven operations return a payload without
    records, each failed query noted. *)
Lemma failure_gives_empty_data st msg (H : db_failure st = Some msg) :
  (forall q s f t l, data_of (search_purchases st q s f t l) = []
                     /\ notes (search_purchases st q s f t l) <> [])
  /\ (forall q c d f t l, data_of (search_sales st q c d f t l) = []
                          /\ notes (search_sales st q c d f t l) <> [])
  /\ (forall q l, data_of (search_nomenclature st q l) = []
                  /\ notes (search_nomenclature st q l) <> [])
  /\ (forall q l, data_of (search_clients st q l) = []
                  /\ notes (search_clients st q l) <> [])
  /\ (forall n, data_of (get_price_dynamics st n) = []
                /\ notes (get_price_dynamics st n) <> [])
  /\ (forall f t l, data_of (get_top_clients st f t l) = []
                    /\ notes (get_top_clients st f t l) <> [])
  /\ (forall f t l, data_of (get_top_products st f t l) = []
                    /\ notes (get_top_products st f t l) <> []).
Proof.
  repeat split; intros;
    unfold search_purchases, search_sales, search_nomenclature, search_clients,
      get_price_dynamics, get_top_clients, get_top_products;
    repeat match goal with
           | |- context [let (_, _) := ?p in _] => destruct p
           end;
    rewrite ?(fun q ps => execute_query_failure st q ps msg H);
    try reflexivity; try discriminate.
Qed.

(** C4, at the failing input: with the store down [get_summary_stats]
    does not return an empty result.  Its four queries fail and are
    noted, each leaving an empty DataFrame, and the first [iloc[0]] then
    raises IndexError out of the operation. *)
Theorem get_summary_stats_raises_when_store_is_down msg pp ss nn nts cs :
  get_summary_stats {| db_failure := Some msg; purchase_prices := pp; sales := ss;
                       nomenclature := nn; nomenclature_types := nts;
                       clients := cs |}
  = (["Ошибка БД: " +++ msg; "Ошибка БД: " +++ msg;
      "Ошибка БД: " +++ msg; "Ошибка БД: " +++ msg],
     inl (IndexError "single positional indexer is out-of-bounds")).
Proof. reflexivity. Qed.

(** The dispatcher turns that exception into an error payload, so the
    conversation goes on. *)
Lemma summary_failure_reaches_model st msg input :
  db_failure st = Some msg ->
  outcome (execute_tool st "get_summary_stats" input)
  = inr (json_dumps (error_payload "single positional indexer is out-of-bounds")).
Proof.
  intros H. rewrite execute_tool_outcome.
  change (dispatch st "get_summary_stats" input) with (get_summary_stats st).
  unfold get_summary_stats.
  rewrite !(fun q ps => execute_query_failure st q ps msg H). reflexivity.
Qed.

(** ** Query text *)


Lemma add_filter_params v c ps acc :
  snd (add_filter v c ps acc) = if truthy v then snd acc ++ ps else snd acc.
Proof. unfold add_filter. destruct (truthy v); reflexivity. Qed.



(** ** The records an operation returns *)

Lemma length_to_records (df : DataFrame) :
  List.length (map obj_of_row df) = List.length df.
Proof. apply length_map. Qed.

Lemma search_purchases_data st q s f t l :
  data_of (search_purchases st q s f t l) =
  map obj_of_row (frame st (purchases_sql (fst (purchases_filters q s f t)) l)
                        (snd (purchases_filters q s f t))).
Proof.
  unfold data_of, search_purchases. destruct (purchases_filters q s f t) as [cs ps].
  repeat (rewrite outcome_bind, execute_query_returns; cbv beta iota).
  reflexivity.
Qed.

Lemma search_sales_data st q c d f t l :
  data_of (search_sales st q c d f t l) =
  map obj_of_row (frame st (sales_sql (fst (sales_filters q c d f t)) l)
                        (snd (sales_filters q c d f t))).
Proof.
  unfold data_of, search_sales. destruct (sales_filters q c d f t) as [cs ps].
  repeat (rewrite outcome_bind, execute_query_returns; cbv beta iota).
  reflexivity.
Qed.

Lemma search_nomenclature_data st q l :
  data_of (search_nomenclature st q l) =
  map obj_of_row (frame st (nomenclature_sql (fst (nomenclature_filters q)) l)
                        (snd (nomenclature_filters q))).
Proof.
  unfold data_of, search_nomenclature. destruct (nomenclature_filters q) as [cs ps].
  repeat (rewrite outcome_bind, execute_query_returns; cbv beta iota).
  reflexivity.
Qed.

Lemma search_clients_data st q l :
  data_of (search_clients st q l) =
  map obj_of_row (frame st (clients_sql (fst (clients_filters q)) l)
                        (snd (clients_filters q))).
Proof.
  unfold data_of, search_clients. destruct (clients_filters q) as [cs ps].
  repeat (rewrite outcome_bind, execute_query_returns; cbv beta iota).
  reflexivity.
Qed.

Lemma get_top_clients_data st f t l :
  data_of (get_top_clients st f t l) =
  map obj_of_row (frame st (top_clients_sql (fst (top_filters f t)) l)
                        (snd (top_filters f t))).
Proof.
  unfold data_of, get_top_clients. destruct (top_filters f t) as [cs ps].
  repeat (rewrite outcome_bind, execute_query_returns; cbv beta iota).
  reflexivity.
Qed.

Lemma get_top_products_data st f t l :
  data_of (get_top_products st f t l) =
  map obj_of_row (frame st (top_products_sql (fst (top_filters f t)) l)
                        (snd (top_filters f t))).
Proof.
  unfold data_of, get_top_products. destruct (top_filters f t) as [cs ps].
  repeat (rewrite outcome_bind, execute_query_returns; cbv beta iota).
  reflexivity.
Qed.

Lemma get_price_dynamics_data st n :
  data_of (get_price_dynamics st n) =
  map obj_of_row (frame st price_dynamics_sql [like_param n]).
Proof.
  unfold data_of, get_price_dynamics.
  rewrite outcome_bind, execute_query_returns.
  destruct (frame st price_dynamics_sql [like_param n]); reflexivity.
Qed.

Lemma limit_count_nat (n : nat) :
  limit_count (Some (PInt (Z.of_nat n))) = Some (Some n).
Proof.
  unfold limit_count.
  destruct (Z.leb_spec 0 (Z.of_nat n)); [| lia].
  rewrite Nat2Z.id. reflexivity.
Qed.

Lemma frame_limit st q ps (n : nat) :
  sel_limit q = Some (PInt (Z.of_nat n)) ->
  (List.length (frame st q ps) <= n)%nat.
Proof.
  intros Hl. unfold frame, run_select.
  destruct (db_failure st); [simpl; lia |].
  destruct (from_rows st (sel_from q)); [| simpl; lia].
  destruct (bind_conds _ ps); [| simpl; lia].
  rewrite Hl, limit_count_nat. simpl. apply firstn_le_length.
Qed.

Lemma insert_by_length {A} (leb : A -> A -> bool) x l :
  List.length (insert_by leb x l) = S (List.length l).
Proof.
  induction l as [| y l IH]; simpl; [reflexivity |].
  destruct (leb x y); simpl; [reflexivity | rewrite IH; reflexivity].
Qed.

Lemma sort_by_length {A} (leb : A -> A -> bool) l :
  List.length (sort_by leb l) = List.length l.
Proof.
  induction l as [| x l IH]; simpl; [reflexivity |].
  rewrite insert_by_length, IH. reflexivity.
Qed.

Lemma check_keywords_rejects fname allowed d k :
  In k (map fst d) -> existsb (String.eqb k) allowed = false ->
  exists msg, outcome (check_keywords fname allowed d) = inl (TypeError msg).
Proof.
  intros Hin Hk. induction d as [| [k' v] d IH]; [destruct Hin |].
  simpl in Hin |- *. destruct (existsb (String.eqb k') allowed) eqn:Hk'.
  - destruct Hin as [-> | Hin]; [congruence | exact (IH Hin)].
  - eexists. reflexivity.
Qed.

Lemma kw_find_in d k v : kw_find d k = Some v -> In k (map fst d).
Proof.
  induction d as [| [k' v'] d IH]; simpl; [discriminate |].
  destruct (String.eqb_spec k k') as [-> | _]; [auto | intros H; right; exact (IH H)].
Qed.

Lemma filter_all {A} (f : A -> bool) (l : list A) :
  (forall x, In x l -> f x = true) -> filter f l = l.
Proof.
  induction l as [| x l IH]; intros H; simpl; [reflexivity |].
  rewrite (H x (or_introl eq_refl)), IH; [reflexivity |].
  intros y Hy. apply H. right. exact Hy.
Qed.

(** A store whose client directory has [m] entries. *)
Lemma clients_unbounded (m : nat) :
  exists st,
    List.length (data_of (search_clients st PNone (PInt (Z.of_nat m)))) = m.
Proof.
  exists {| db_failure := None; purchase_prices := []; sales := [];
            nomenclature := []; nomenclature_types := [];
            clients := repeat {| c_name := "x"; c_inn := "1" |} m |}.
  rewrite search_clients_data, length_map.
  unfold frame, run_select. simpl sel_limit. rewrite limit_count_nat. simpl.
  rewrite length_firstn, !length_map, sort_by_length, filter_all by reflexivity.
  rewrite length_map, repeat_length. lia.
Qed.

(** C9, as the code has it: six of the eight operations take a limit,
    with defaults 20, 20, 30, 30, 10 and 10; given a non-negative
    integer limit they return at most that many records; no upper bound
    is put on the limit itself (a store with [m] clients returns [m]
    records for limit [m]).  [get_price_dynamics] takes no limit: a call
    that passes one raises TypeError inside the dispatcher, and the
    operation returns every matching record.  [get_summary_stats] is
    called without arguments. *)
Theorem limit_bounds_result_count st (n : nat) q s c d f t :
  ((List.length (data_of (search_purchases st q s f t (PInt (Z.of_nat n)))) <= n)%nat
   /\ (List.length (data_of (search_sales st q c d f t (PInt (Z.of_nat n)))) <= n)%nat
   /\ (List.length (data_of (search_nomenclature st q (PInt (Z.of_nat n)))) <= n)%nat
   /\ (List.length (data_of (search_clients st q (PInt (Z.of_nat n)))) <= n)%nat
   /\ (List.length (data_of (get_top_clients st f t (PInt (Z.of_nat n)))) <= n)%nat
   /\ (List.length (data_of (get_top_products st f t (PInt (Z.of_nat n)))) <= n)%nat)
  /\ (forall input,
         kw_find input "limit" = None ->
         dispatch st "search_purchases" input
         = dispatch st "search_purchases" (("limit", PInt 20) :: input)
         /\ dispatch st "search_sales" input
            = dispatch st "search_sales" (("limit", PInt 20) :: input)
         /\ dispatch st "search_nomenclature" input
            = dispatch st "search_nomenclature" (("limit", PInt 30) :: input)
         /\ dispatch st "search_clients" input
            = dispatch st "search_clients" (("limit", PInt 30) :: input)
         /\ dispatch st "get_top_clients" input
            = dispatch st "get_top_clients" (("limit", PInt 10) :: input)
         /\ dispatch st "get_top_products" input
            = dispatch st "get_top_products" (("limit", PInt 10) :: input))
  /\ (forall m : nat,
         exists st',
           List.length (data_of (search_clients st' PNone (PInt (Z.of_nat m)))) = m)
  /\ (forall input v,
         kw_find input "limit" = Some v ->
         exists msg,
           outcome (dispatch st "get_price_dynamics" input) = inl (TypeError msg))
  /\ data_of (get_price_dynamics st q)
     = map obj_of_row (frame st price_dynamics_sql [like_param q])
  /\ sel_limit price_dynamics_sql = None
  /\ (forall input, dispatch st "get_summary_stats" input = get_summary_stats st).
Proof.
  split; [| split; [| split; [| split; [| split; [| split]]]]].
  - rewrite search_purchases_data, search_sales_data, search_nomenclature_data,
      search_clients_data, get_top_clients_data, get_top_products_data,
      !length_map.
    repeat split; apply frame_limit; reflexivity.
  - intros input Hnone. unfold dispatch, kw. simpl. rewrite Hnone.
    repeat split; reflexivity.
  - exact clients_unbounded.
  - intros input v Hv. unfold dispatch. simpl.
    destruct (check_keywords_rejects "get_price_dynamics" ["nomenclature"] input "limit"
                (kw_find_in _ _ _ Hv) eq_refl) as (msg & Hmsg).
    exists msg. rewrite outcome_bind, Hmsg. reflexivity.
  - apply get_price_dynamics_data.
  - reflexivity.
  - reflexivity.
Qed.

(** ** Lists, sorting and patterns *)

Lemma filter_map_comm {A B} (f : B -> bool) (g : A -> B) (l : list A) :
  filter f (map g l) = map g (filter (fun x => f (g x)) l).
Proof.
  induction l as [| x l IH]; simpl; [reflexivity |].
  destruct (f (g x)); simpl; rewrite IH; reflexivity.
Qed.

Lemma insert_by_map {A B} (leb : B -> B -> bool) (leb' : A -> A -> bool) (g : A -> B) :
  (forall a b, leb (g a) (g b) = leb' a b) ->
  forall x l, insert_by leb (g x) (map g l) = map g (insert_by leb' x l).
Proof.
  intros H x l. induction l as [| y l IH]; simpl; [reflexivity |].
  rewrite H. destruct (leb' x y); simpl; [reflexivity | rewrite IH; reflexivity].
Qed.

Lemma sort_by_map {A B} (leb : B -> B -> bool) (leb' : A -> A -> bool) (g : A -> B) :
  (forall a b, leb (g a) (g b) = leb' a b) ->
  forall l, sort_by leb (map g l) = map g (sort_by leb' l).
Proof.
  intros H l. induction l as [| x l IH]; simpl; [reflexivity |].
  rewrite IH. apply insert_by_map. exact H.
Qed.




Lemma list_ascii_of_append s1 s2 :
  list_ascii_of_string (s1 +++ s2) = list_ascii_of_string s1 ++ list_ascii_of_string s2.
Proof. induction s1 as [| c s1 IH]; simpl; [reflexivity | rewrite IH; reflexivity]. Qed.

(** A pattern that ends in a percent sign is well formed. *)
Lemma like_tokens_percent_end (l : list ascii) :
  (exists ts, like_tokens (l ++ [percent]) = Some ts)
  /\ forall c, exists ts, like_tokens (c :: l ++ [percent]) = Some ts.
Proof.
  induction l as [| a l [IH1 IH2]].
  - split; [eexists; reflexivity |].
    intros c. simpl.
    destruct (Ascii.eqb c backslash); [eexists; reflexivity |].
    destruct (Ascii.eqb c percent); [eexists; reflexivity |].
    destruct (Ascii.eqb c underscore); eexists; reflexivity.
  - split; [apply IH2 |].
    intros c. destruct IH1 as (t1 & H1). destruct (IH2 a) as (t2 & H2).
    change (like_tokens (c :: (a :: l) ++ [percent])) with
      (if Ascii.eqb c backslash
       then option_map (cons (LChar a)) (like_tokens (l ++ [percent]))
       else if Ascii.eqb c percent
            then option_map (cons LAny) (like_tokens (a :: l ++ [percent]))
            else if Ascii.eqb c underscore
                 then option_map (cons LOne) (like_tokens (a :: l ++ [percent]))
                 else option_map (cons (LChar c)) (like_tokens (a :: l ++ [percent]))).
    rewrite H1, H2.
    destruct (Ascii.eqb c backslash); [eexists; reflexivity |].
    destruct (Ascii.eqb c percent); [eexists; reflexivity |].
    destruct (Ascii.eqb c underscore); eexists; reflexivity.
Qed.

Lemma ilike_tokens_like_param (v : pyval) :
  ilike_tokens ("%" +++ py_str v +++ "%") = Some (contains_pattern v).
Proof.
  unfold contains_pattern, ilike_tokens.
  rewrite list_ascii_of_append, list_ascii_of_append.
  destruct (like_tokens_percent_end (list_ascii_of_string (py_str v))) as [_ H].
  destruct (H percent) as (ts & Hts).
  change (list_ascii_of_string "%") with [percent].
  simpl app. rewrite Hts. reflexivity.
Qed.


(** ** Price history *)


















(** ** Sortedness *)











(** ** The two search operations *)

Lemma bind_true cs ps :
  bind_conds (CondTrue :: cs) ps
  = match bind_conds cs ps with
    | Some q => Some (fun r => true && q r)
    | None => None
    end.
Proof. reflexivity. Qed.

Lemma bind_ilike_or c1 c2 v cs ps :
  bind_conds (CondIlikeOr c1 c2 :: cs) (like_param v :: like_param v :: ps)
  = match bind_conds cs ps with
    | Some q => Some (fun r => (text_ilike (lookup c1 r) (contains_pattern v)
                                || text_ilike (lookup c2 r) (contains_pattern v))
                               && q r)
    | None => None
    end.
Proof.
  cbn [bind_conds]. unfold bind_cond, like_param.
  rewrite ilike_tokens_like_param. reflexivity.
Qed.

Lemma bind_ilike col v cs ps :
  bind_conds (CondIlike col :: cs) (like_param v :: ps)
  = match bind_conds cs ps with
    | Some q => Some (fun r => text_ilike (lookup col r) (contains_pattern v) && q r)
    | None => None
    end.
Proof.
  cbn [bind_conds]. unfold bind_cond, like_param.
  rewrite ilike_tokens_like_param. reflexivity.
Qed.

Lemma bind_ge col v cs ps :
  truthy v = true ->
  bind_conds (CondGe col :: cs) (v :: ps)
  = match date_bound v with
    | Some (Some d) =>
        match bind_conds cs ps with
        | Some q => Some (fun r => match lookup col r with
                                   | CDate x => d <=? x
                                   | _ => false
                                   end && q r)
        | None => None
        end
    | _ => None
    end.
Proof.
  intros Hv. unfold date_bound. rewrite Hv. cbn [bind_conds]. unfold bind_cond.
  destruct v as [| b | z | s]; try reflexivity.
  destruct (parse_date s); reflexivity.
Qed.

Lemma bind_le col v cs ps :
  truthy v = true ->
  bind_conds (CondLe col :: cs) (v :: ps)
  = match date_bound v with
    | Some (Some d) =>
        match bind_conds cs ps with
        | Some q => Some (fun r => match lookup col r with
                                   | CDate x => x <=? d
                                   | _ => false
                                   end && q r)
        | None => None
        end
    | _ => None
    end.
Proof.
  intros Hv. unfold date_bound. rewrite Hv. cbn [bind_conds]. unfold bind_cond.
  destruct v as [| b | z | s]; try reflexivity.
  destruct (parse_date s); reflexivity.
Qed.

Lemma bind_eq col v cs ps :
  truthy v = true ->
  bind_conds (CondEq col :: cs) (v :: ps)
  = if doc_type_ok v
    then match bind_conds cs ps with
         | Some q => Some (fun r => sql_eqb (lookup col r) (CText (py_str v)) && q r)
         | None => None
         end
    else None.
Proof.
  intros Hv. unfold doc_type_ok. rewrite Hv. cbn [bind_conds]. unfold bind_cond.
  destruct v as [| b | z | s]; reflexivity.
Qed.

Lemma date_bound_absent v : truthy v = false -> date_bound v = Some None.
Proof. intros Hv. unfold date_bound. rewrite Hv. reflexivity. Qed.

Lemma date_bound_given v :
  truthy v = true -> date_bound v <> Some None.
Proof.
  intros Hv. unfold date_bound. rewrite Hv.
  destruct v; try discriminate. destruct (parse_date s); discriminate.
Qed.

Lemma firstn_sorted_rows {A} (g : A -> row) (items : list item)
    (o : string * bool) (leb' : A -> A -> bool)
    (pred : row -> bool) (sel : A -> bool) (n : nat) (l : list A) :
  (forall a b, order_leb o (g a) (g b) = leb' a b) ->
  (forall a, eval_items items [g a] = g a) ->
  (forall a, pred (g a) = sel a) ->
  take (Some n)
       (map (fun r => eval_items items [r])
            (order_rows (Some o) (filter pred (map g l))))
  = firstn n (map g (sort_by leb' (filter sel l))).
Proof.
  intros Ho Hi Hp. unfold take, order_rows.
  rewrite filter_map_comm, (sort_by_map _ leb' g Ho), map_map.
  rewrite (filter_ext _ sel) by exact Hp.
  rewrite (map_ext _ g) by exact Hi. reflexivity.
Qed.

Ltac split_atoms :=
  repeat match goal with
         | |- context [ilike ?a ?b] => destruct (ilike a b)
         | |- context [Z.leb ?a ?b] => destruct (Z.leb a b)
         | |- context [String.eqb ?a ?b] => destruct (String.eqb a b)
         end;
  reflexivity.

Lemma search_purchases_frame st q s f t (n : nat) :
  db_failure st = None ->
  frame st (purchases_sql (fst (purchases_filters q s f t)) (PInt (Z.of_nat n)))
        (snd (purchases_filters q s f t))
  = purchases_found st q s f t n.
Proof.
  intros Hdb. unfold frame, run_select. rewrite Hdb.
  change (from_rows st (sel_from (purchases_sql (fst (purchases_filters q s f t))
                                                (PInt (Z.of_nat n)))))
    with (Some (map purchase_row (purchase_prices st))).
  cbn [sel_where purchases_sql sel_limit sel_group sel_order sel_items].
  rewrite limit_count_nat.
  unfold purchases_filters, date_range, add_filter, purchases_found.
  destruct (truthy q) eqn:Hq, (truthy s) eqn:Hs, (truthy f) eqn:Hf, (truthy t) eqn:Ht;
    cbn [fst snd app];
    rewrite bind_true, ?bind_ilike_or, ?bind_ilike,
      ?(bind_ge _ _ _ _ Hf), ?(bind_le _ _ _ _ Ht),
      ?(date_bound_absent _ Hf), ?(date_bound_absent _ Ht);
    try (pose proof (date_bound_given _ Hf));
    try (pose proof (date_bound_given _ Ht));
    try (destruct (date_bound f) as [[a |] |]; try congruence; try reflexivity);
    try (destruct (date_bound t) as [[b |] |]; try congruence; try reflexivity);
    cbn [bind_conds existsb is_aggregate orb];
    apply firstn_sorted_rows; try reflexivity;
    intros p; unfold purchase_selected, when_given, on_or_after, on_or_before;
    rewrite Hq, Hs; cbn; split_atoms.
Qed.

Lemma search_sales_frame st q c d f t (n : nat) :
  db_failure st = None ->
  frame st (sales_sql (fst (sales_filters q c d f t)) (PInt (Z.of_nat n)))
        (snd (sales_filters q c d f t))
  = sales_found st q c d f t n.
Proof.
  intros Hdb. unfold frame, run_select. rewrite Hdb.
  change (from_rows st (sel_from (sales_sql (fst (sales_filters q c d f t))
                                            (PInt (Z.of_nat n)))))
    with (Some (map sale_row (sales st))).
  cbn [sel_where sales_sql sel_limit sel_group sel_order sel_items].
  rewrite limit_count_nat.
  unfold sales_filters, date_range, add_filter, sales_found.
  destruct (truthy q) eqn:Hq, (truthy c) eqn:Hc, (truthy d) eqn:Hd,
           (truthy f) eqn:Hf, (truthy t) eqn:Ht;
    cbn [fst snd app];
    rewrite bind_true, ?bind_ilike_or, ?bind_ilike, ?(bind_eq _ _ _ _ Hd),
      ?(bind_ge _ _ _ _ Hf), ?(bind_le _ _ _ _ Ht),
      ?(date_bound_absent _ Hf), ?(date_bound_absent _ Ht);
    try (assert (Hok : doc_type_ok d = true)
           by (unfold doc_type_ok; rewrite Hd; reflexivity); rewrite Hok);
    try (destruct (doc_type_ok d); [| reflexivity]);
    try (pose proof (date_bound_given _ Hf));
    try (pose proof (date_bound_given _ Ht));
    try (destruct (date_bound f) as [[a |] |]; try congruence; try reflexivity);
    try (destruct (date_bound t) as [[b |] |]; try congruence; try reflexivity);
    cbn [bind_conds existsb is_aggregate orb];
    apply firstn_sorted_rows; try reflexivity;
    intros x; unfold sale_selected, when_given, on_or_after, on_or_before;
    rewrite Hq, Hc, Hd; cbn; split_atoms.
Qed.

(** ** Patterns: case and substrings *)


Lemma lower_idempotent (c : ascii) : lower (lower c) = lower c.
Proof. destruct c as [[] [] [] [] [] [] [] []]; reflexivity. Qed.
















(** ** Leaderboards *)

Lemma bind_text_lit col lit cs ps :
  bind_conds (CondTextLit col lit :: cs) ps
  = match bind_conds cs ps with
    | Some q => Some (fun r => sql_eqb (lookup col r) (CText lit) && q r)
    | None => None
    end.
Proof. reflexivity. Qed.

Lemma dedup_texts (l : list string) : dedup (map CText l) = map CText (distinct l).
Proof.
  induction l as [| x l IH]; simpl; [reflexivity |].
  rewrite IH, filter_map_comm. reflexivity.
Qed.

Lemma non_null_texts (l : list string) : non_null (map CText l) = map CText l.
Proof.
  unfold non_null. apply filter_all. intros c Hc.
  apply in_map_iff in Hc as (s & <- & _). reflexivity.
Qed.

Lemma nums_of_nums (qs : list Q) : nums (map CNum qs) = qs.
Proof. induction qs as [| q qs IH]; simpl; [reflexivity | rewrite IH; reflexivity]. Qed.

Lemma sum_cells_nums (q : Q) (qs : list Q) :
  sum_cells (map CNum (q :: qs)) = CNum (sum_q (q :: qs)).
Proof. unfold sum_cells. rewrite nums_of_nums. reflexivity. Qed.

Lemma distinct_in (l : list string) (x : string) : In x (distinct l) <-> In x l.
Proof.
  induction l as [| y l IH]; simpl; [reflexivity |].
  rewrite filter_In, IH. split.
  - intros [-> | [H _]]; auto.
  - intros [-> | H]; [auto |].
    destruct (String.eqb_spec y x) as [-> | Hn]; [auto |].
    right. split; [exact H | reflexivity].
Qed.


(** The groups of a set of sales by a text column [g] that holds [key]. *)
Lemma group_sales (g : string) (key : sale -> string) (xs : list sale) :
  (forall x, lookup g (sale_row x) = CText (key x)) ->
  group_rows g (map sale_row xs)
  = map (fun name => map sale_row (sales_of key name xs)) (distinct (map key xs)).
Proof.
  intros Hg. unfold group_rows.
  rewrite map_map, (map_ext _ (fun x => CText (key x))) by exact Hg.
  rewrite <- (map_map key CText), dedup_texts, map_map.
  apply map_ext. intros name. rewrite filter_map_comm.
  unfold sales_of. f_equal. apply filter_ext. intros x. rewrite Hg. reflexivity.
Qed.

Lemma sales_of_nonempty (key : sale -> string) (name : string) (xs : list sale) :
  In name (distinct (map key xs)) ->
  exists x rest, sales_of key name xs = x :: rest /\ key x = name.
Proof.
  intros Hin. apply distinct_in, in_map_iff in Hin as (x & Hx & Hin).
  assert (H : In x (sales_of key name xs)).
  { apply filter_In. split; [exact Hin |]. rewrite Hx. apply String.eqb_refl. }
  destruct (sales_of key name xs) as [| y rest] eqn:Hs; [destruct H |].
  exists y, rest. split; [reflexivity |].
  assert (Hy : In y (sales_of key name xs)) by (rewrite Hs; left; reflexivity).
  apply filter_In in Hy as [_ Hy]. apply String.eqb_eq. exact Hy.
Qed.

Lemma client_rows (conds : list cond) (limit : pyval) (xs : list sale) :
  map (eval_items (sel_items (top_clients_sql conds limit)))
      (group_rows "client_name" (map sale_row xs))
  = client_board xs.
Proof.
  rewrite (group_sales "client_name" s_client_name) by reflexivity.
  unfold client_board. rewrite map_map. apply map_ext_in. intros name Hin.
  destruct (sales_of_nonempty _ _ _ Hin) as (x & rest & Hs & Hx).
  unfold client_entry. rewrite Hs.
  cbn [sel_items top_clients_sql eval_items map eval_item label after_dot].
  rewrite !map_map.
  rewrite (map_ext (fun x0 => lookup "sum_with_vat" (sale_row x0))
                   (fun x0 => CNum (s_sum_with_vat x0))) by reflexivity.
  rewrite (map_ext (fun x0 => lookup "doc_number" (sale_row x0))
                   (fun x0 => CText (s_doc_number x0))) by reflexivity.
  rewrite <- (map_map s_sum_with_vat CNum), <- (map_map s_doc_number CText).
  change (lookup "sum_with_vat" (sale_row x)) with (CNum (s_sum_with_vat x)).
  change (lookup "doc_number" (sale_row x)) with (CText (s_doc_number x)).
  change (lookup "client_name" (sale_row x)) with (CText (s_client_name x)).
  change (label "client_name") with "client_name".
  change (CNum (s_sum_with_vat x) :: map CNum (map s_sum_with_vat rest))
    with (map CNum (s_sum_with_vat x :: map s_sum_with_vat rest)).
  change (CText (s_doc_number x) :: map CText (map s_doc_number rest))
    with (map CText (s_doc_number x :: map s_doc_number rest)).
  rewrite non_null_texts, dedup_texts, length_map, sum_cells_nums, Hx. reflexivity.
Qed.

Lemma product_rows (conds : list cond) (limit : pyval) (xs : list sale) :
  map (eval_items (sel_items (top_products_sql conds limit)))
      (group_rows "nomenclature_name" (map sale_row xs))
  = product_board xs.
Proof.
  rewrite (group_sales "nomenclature_name" s_nomenclature_name) by reflexivity.
  unfold product_board. rewrite map_map. apply map_ext_in. intros name Hin.
  destruct (sales_of_nonempty _ _ _ Hin) as (x & rest & Hs & Hx).
  unfold product_entry. rewrite Hs.
  cbn [sel_items top_products_sql eval_items map eval_item label after_dot].
  rewrite !map_map.
  rewrite (map_ext (fun x0 => lookup "sum_with_vat" (sale_row x0))
                   (fun x0 => CNum (s_sum_with_vat x0))) by reflexivity.
  rewrite (map_ext (fun x0 => lookup "quantity" (sale_row x0))
                   (fun x0 => CNum (s_quantity x0))) by reflexivity.
  rewrite <- (map_map s_sum_with_vat CNum), <- (map_map s_quantity CNum).
  change (lookup "sum_with_vat" (sale_row x)) with (CNum (s_sum_with_vat x)).
  change (lookup "quantity" (sale_row x)) with (CNum (s_quantity x)).
  change (lookup "nomenclature_name" (sale_row x)) with (CText (s_nomenclature_name x)).
  change (label "nomenclature_name") with "nomenclature_name".
  change (CNum (s_sum_with_vat x) :: map CNum (map s_sum_with_vat rest))
    with (map CNum (s_sum_with_vat x :: map s_sum_with_vat rest)).
  change (CNum (s_quantity x) :: map CNum (map s_quantity rest))
    with (map CNum (s_quantity x :: map s_quantity rest)).
  rewrite !sum_cells_nums, Hx. reflexivity.
Qed.

Lemma realised_rows (a b : option Z) (q : row -> bool) (xs : list sale) :
  (forall x, q (sale_row x) = on_or_after a (s_doc_date x) && on_or_before b (s_doc_date x)) ->
  filter (fun r => sql_eqb (lookup "doc_type" r) (CText "Реализация") && q r)
         (map sale_row xs)
  = map sale_row (filter (realised a b) xs).
Proof.
  intros Hq. rewrite filter_map_comm. f_equal. apply filter_ext. intros x.
  rewrite Hq. unfold realised. rewrite andb_assoc. reflexivity.
Qed.

Lemma get_top_clients_frame st f t (n : nat) :
  db_failure st = None ->
  frame st (top_clients_sql (fst (top_filters f t)) (PInt (Z.of_nat n)))
        (snd (top_filters f t))
  = top_clients_found st f t n.
Proof.
  intros Hdb. unfold frame, run_select. rewrite Hdb.
  change (from_rows st (sel_from (top_clients_sql (fst (top_filters f t))
                                                  (PInt (Z.of_nat n)))))
    with (Some (map sale_row (sales st))).
  cbn [sel_where top_clients_sql sel_limit sel_group sel_order].
  rewrite limit_count_nat.
  unfold top_filters, date_range, add_filter, top_clients_found.
  destruct (truthy f) eqn:Hf, (truthy t) eqn:Ht;
    cbn [fst snd app];
    rewrite bind_text_lit, ?(bind_ge _ _ _ _ Hf), ?(bind_le _ _ _ _ Ht),
      ?(date_bound_absent _ Hf), ?(date_bound_absent _ Ht);
    try (pose proof (date_bound_given _ Hf));
    try (pose proof (date_bound_given _ Ht));
    try (destruct (date_bound f) as [[a |] |]; try congruence; try reflexivity);
    try (destruct (date_bound t) as [[b |] |]; try congruence; try reflexivity);
    cbn [bind_conds];
    match goal with
    | |- context [filter _ (map sale_row (sales st))] =>
        match goal with
        | |- context [firstn n (sort_by by_total_desc
                                  (client_board (filter (realised ?a ?b) (sales st))))] =>
            rewrite (realised_rows a b) by (intros x; cbn; split_atoms)
        end
    end;
    rewrite (client_rows _ (PInt (Z.of_nat n))); reflexivity.
Qed.

Lemma get_top_products_frame st f t (n : nat) :
  db_failure st = None ->
  frame st (top_products_sql (fst (top_filters f t)) (PInt (Z.of_nat n)))
        (snd (top_filters f t))
  = top_products_found st f t n.
Proof.
  intros Hdb. unfold frame, run_select. rewrite Hdb.
  change (from_rows st (sel_from (top_products_sql (fst (top_filters f t))
                                                   (PInt (Z.of_nat n)))))
    with (Some (map sale_row (sales st))).
  cbn [sel_where top_products_sql sel_limit sel_group sel_order].
  rewrite limit_count_nat.
  unfold top_filters, date_range, add_filter, top_products_found.
  destruct (truthy f) eqn:Hf, (truthy t) eqn:Ht;
    cbn [fst snd app];
    rewrite bind_text_lit, ?(bind_ge _ _ _ _ Hf), ?(bind_le _ _ _ _ Ht),
      ?(date_bound_absent _ Hf), ?(date_bound_absent _ Ht);
    try (pose proof (date_bound_given _ Hf));
    try (pose proof (date_bound_given _ Ht));
    try (destruct (date_bound f) as [[a |] |]; try congruence; try reflexivity);
    try (destruct (date_bound t) as [[b |] |]; try congruence; try reflexivity);
    cbn [bind_conds];
    match goal with
    | |- context [filter _ (map sale_row (sales st))] =>
        match goal with
        | |- context [firstn n (sort_by by_total_desc
                                  (product_board (filter (realised ?a ?b) (sales st))))] =>
            rewrite (realised_rows a b) by (intros x; cbn; split_atoms)
        end
    end;
    rewrite (product_rows _ (PInt (Z.of_nat n))); reflexivity.
Qed.












(** ** Statistics of the search operations *)

Lemma execute_query_accepted st q ps df :
  run_select st q ps = inr df ->
  execute_query st q ps = ret df /\ frame st q ps = df.
Proof. intros H. unfold execute_query, frame. rewrite H. split; reflexivity. Qed.


(** The conditions of [search_purchases] bound to its parameters. *)
Lemma purchases_conditions q s f t :
  match date_bound f, date_bound t with
  | Some a, Some b =>
      exists pred,
        bind_conds (fst (purchases_filters q s f t)) (snd (purchases_filters q s f t))
        = Some pred
        /\ forall p, pred (purchase_row p) = purchase_selected q s a b p
  | _, _ =>
      bind_conds (fst (purchases_filters q s f t)) (snd (purchases_filters q s f t))
      = None
  end.
Proof.
  unfold purchases_filters, date_range, add_filter.
  destruct (truthy q) eqn:Hq, (truthy s) eqn:Hs, (truthy f) eqn:Hf, (truthy t) eqn:Ht;
    cbn [fst snd app];
    rewrite bind_true, ?bind_ilike_or, ?bind_ilike,
      ?(bind_ge _ _ _ _ Hf), ?(bind_le _ _ _ _ Ht),
      ?(date_bound_absent _ Hf), ?(date_bound_absent _ Ht);
    try (pose proof (date_bound_given _ Hf));
    try (pose proof (date_bound_given _ Ht));
    try (destruct (date_bound f) as [[a |] |]; try congruence; try reflexivity);
    try (destruct (date_bound t) as [[b |] |]; try congruence; try reflexivity);
    cbn [bind_conds];
    (eexists; split; [reflexivity |]);
    intros p; unfold purchase_selected, when_given, on_or_after, on_or_before;
    rewrite Hq, Hs; cbn; split_atoms.
Qed.




Lemma non_null_dates (ds : list Z) : non_null (map CDate ds) = map CDate ds.
Proof.
  unfold non_null. apply filter_all. intros c Hc.
  apply in_map_iff in Hc as (d & <- & _). reflexivity.
Qed.

Lemma min_cell_dates (ds : list Z) :
  min_cell (map CDate ds) = date_cell (earliest_day ds).
Proof.
  unfold min_cell. rewrite non_null_dates.
  induction ds as [| d ds IH]; [reflexivity |].
  cbn [map fold_right]. rewrite IH. cbn [earliest_day].
  destruct (earliest_day ds) as [m |]; cbn [date_cell cell_leb]; [| reflexivity].
  destruct (Z.leb_spec d m); f_equal; lia.
Qed.

Lemma max_cell_dates (ds : list Z) :
  max_cell (map CDate ds) = date_cell (latest_day ds).
Proof.
  unfold max_cell. rewrite non_null_dates.
  induction ds as [| d ds IH]; [reflexivity |].
  cbn [map fold_right]. rewrite IH. cbn [latest_day].
  destruct (latest_day ds) as [m |]; cbn [date_cell cell_leb]; [| reflexivity].
  destruct (Z.leb_spec d m); f_equal; lia.
Qed.

Lemma coalesce_sum (qs : list Q) :
  coalesce0 (sum_cells (map CNum qs)) = CNum (sum_q qs).
Proof. destruct qs as [| q qs]; [reflexivity |]. rewrite sum_cells_nums. reflexivity. Qed.

Lemma count_distinct_texts {A} (g : A -> row) (col : string) (key : A -> string)
    (xs : list A) :
  (forall x, lookup col (g x) = CText (key x)) ->
  List.length (dedup (non_null (map (lookup col) (map g xs))))
  = List.length (distinct (map key xs)).
Proof.
  intros H. rewrite map_map, (map_ext _ (fun x => CText (key x))) by exact H.
  rewrite <- (map_map key CText), non_null_texts, dedup_texts, length_map.
  reflexivity.
Qed.

Lemma purchases_stats_eval (conds : list cond) (xs : list purchase) :
  eval_items (sel_items (purchases_stats_sql conds)) (map purchase_row xs)
  = purchases_stats xs.
Proof.
  unfold purchases_stats.
  cbn [sel_items purchases_stats_sql eval_items map eval_item].
  rewrite length_map.
  rewrite (count_distinct_texts purchase_row "contractor_name" p_contractor_name)
    by reflexivity.
  rewrite (count_distinct_texts purchase_row "nomenclature_name" p_nomenclature_name)
    by reflexivity.
  rewrite !map_map.
  rewrite (map_ext (fun x => lookup "sum_total" (purchase_row x))
                   (fun x => CNum (p_sum_total x))) by reflexivity.
  rewrite (map_ext (fun x => lookup "doc_date" (purchase_row x))
                   (fun x => CDate (p_doc_date x))) by reflexivity.
  rewrite <- (map_map p_sum_total CNum), <- (map_map p_doc_date CDate).
  rewrite coalesce_sum, min_cell_dates, max_cell_dates. reflexivity.
Qed.

Lemma coalesce_sum_case (doc_type : string) (xs : list sale) :
  coalesce0
    (sum_cells
       (map (fun r => if sql_eqb (lookup "doc_type" r) (CText doc_type)
                      then lookup "sum_with_vat" r else CNum 0)
            (map sale_row xs)))
  = CNum (sum_q (map (amount_of_type doc_type) xs)).
Proof.
  rewrite map_map.
  rewrite (map_ext _ (fun x => CNum (amount_of_type doc_type x))).
  - rewrite <- (map_map (amount_of_type doc_type) CNum). apply coalesce_sum.
  - intros x. unfold amount_of_type. cbn.
    destruct (String.eqb (s_doc_type x) doc_type); reflexivity.
Qed.


(** What the store answers to a query without grouping. *)
Lemma run_select_rows st q ps envs pred lim :
  db_failure st = None ->
  from_rows st (sel_from q) = Some envs ->
  bind_conds (match sel_where q with Some cs => cs | None => [] end) ps = Some pred ->
  limit_count (sel_limit q) = Some lim ->
  sel_group q = None ->
  run_select st q ps
  = inr (take lim
           (if existsb is_aggregate (sel_items q)
            then [eval_items (sel_items q) (filter pred envs)]
            else map (fun r => eval_items (sel_items q) [r])
                     (order_rows (sel_order q) (filter pred envs)))).
Proof.
  intros Hdb Hfrom Hbind Hlim Hgroup. unfold run_select.
  rewrite Hdb, Hfrom, Hbind, Hlim, Hgroup. reflexivity.
Qed.




Lemma search_purchases_payload st q s f t (n : nat) a b :
  db_failure st = None ->
  date_bound f = Some a ->
  date_bound t = Some b ->
  search_purchases st q s f t (PInt (Z.of_nat n))
  = ret (ODict [("type", OStr "purchases");
                ("data", to_records (purchases_found st q s f t n));
                ("stats",
                 obj_of_row
                   (purchases_stats
                      (filter (purchase_selected q s a b) (purchase_prices st))));
                ("query_used",
                 OStr (search_purchases_text q s f t (PInt (Z.of_nat n))))]).
Proof.
  intros Hdb Ha Hb.
  pose proof (purchases_conditions q s f t) as Hc. rewrite Ha, Hb in Hc.
  destruct Hc as (pred & Hbind & Hpred).
  pose proof (search_purchases_frame st q s f t n Hdb) as Hframe.
  unfold search_purchases, search_purchases_text.
  destruct (purchases_filters q s f t) as [cs ps]. cbn [fst snd] in *.
  destruct (execute_query_accepted st (purchases_sql cs (PInt (Z.of_nat n))) ps _
              (run_select_rows st (purchases_sql cs (PInt (Z.of_nat n))) ps
                 (map purchase_row (purchase_prices st)) pred (Some n)
                 Hdb eq_refl Hbind (limit_count_nat n) eq_refl)) as [Hq1 Hf1].
  rewrite Hframe in Hf1.
  destruct (execute_query_accepted st (purchases_stats_sql cs) ps _
              (run_select_rows st (purchases_stats_sql cs) ps
                 (map purchase_row (purchase_prices st)) pred None
                 Hdb eq_refl Hbind eq_refl eq_refl)) as [Hq2 _].
  rewrite Hq1, Hq2, <- Hf1.
  cbn [existsb is_aggregate sel_items purchases_stats_sql orb take].
  rewrite filter_map_comm, (filter_ext _ _ Hpred).
  change (eval_items _ (map purchase_row ?xs))
    with (eval_items (sel_items (purchases_stats_sql cs)) (map purchase_row xs)).
  rewrite purchases_stats_eval. reflexivity.
Qed.





(** ** The summary *)

Lemma summary_purchases_row st :
  db_failure st = None ->
  execute_query st summary_purchases_sql []
  = ret [[("cnt", CInt (Z.of_nat (List.length (purchase_prices st))));
          ("total", CNum (sum_q (map p_sum_total (purchase_prices st))));
          ("min_date", date_cell (earliest_day (map p_doc_date (purchase_prices st))));
          ("max_date", date_cell (latest_day (map p_doc_date (purchase_prices st))))]].
Proof.
  intros Hdb.
  destruct (execute_query_accepted st summary_purchases_sql [] _
              (run_select_rows st summary_purchases_sql []
                 (map purchase_row (purchase_prices st)) (fun _ => true) None
                 Hdb eq_refl eq_refl eq_refl eq_refl)) as [-> _].
  cbn [existsb is_aggregate sel_items summary_purchases_sql orb take].
  rewrite filter_all by reflexivity.
  cbn [eval_items map eval_item]. rewrite length_map, !map_map.
  rewrite (map_ext (fun x => lookup "sum_total" (purchase_row x))
                   (fun x => CNum (p_sum_total x))) by reflexivity.
  rewrite (map_ext (fun x => lookup "doc_date" (purchase_row x))
                   (fun x => CDate (p_doc_date x))) by reflexivity.
  rewrite <- (map_map p_sum_total CNum), <- (map_map p_doc_date CDate).
  rewrite coalesce_sum, min_cell_dates, max_cell_dates. reflexivity.
Qed.

Lemma summary_sales_row st :
  db_failure st = None ->
  execute_query st summary_sales_sql []
  = ret [[("cnt", CInt (Z.of_nat (List.length (sales st))));
          ("sales_total", CNum (sum_q (map (amount_of_type "Реализация") (sales st))));
          ("corr_total", CNum (sum_q (map (amount_of_type "Корректировка") (sales st))));
          ("min_date", date_cell (earliest_day (map s_doc_date (sales st))));
          ("max_date", date_cell (latest_day (map s_doc_date (sales st))))]].
Proof.
  intros Hdb.
  destruct (execute_query_accepted st summary_sales_sql [] _
              (run_select_rows st summary_sales_sql []
                 (map sale_row (sales st)) (fun _ => true) None
                 Hdb eq_refl eq_refl eq_refl eq_refl)) as [-> _].
  cbn [existsb is_aggregate sel_items summary_sales_sql orb take].
  rewrite filter_all by reflexivity.
  cbn [eval_items map eval_item]. rewrite length_map, !coalesce_sum_case, !map_map.
  rewrite (map_ext (fun x => lookup "doc_date" (sale_row x))
                   (fun x => CDate (s_doc_date x))) by reflexivity.
  rewrite <- (map_map s_doc_date CDate).
  rewrite min_cell_dates, max_cell_dates. reflexivity.
Qed.

Lemma summary_nomenclature_row st :
  db_failure st = None ->
  execute_query st summary_nomenclature_sql []
  = ret [[("cnt", CInt (Z.of_nat (List.length (leaf_items st))))]].
Proof.
  intros Hdb.
  destruct (execute_query_accepted st summary_nomenclature_sql [] _
              (run_select_rows st summary_nomenclature_sql []
                 (map nomenclature_row (nomenclature st))
                 (fun r => sql_eqb (lookup "is_folder" r) (CBool false) && true) None
                 Hdb eq_refl eq_refl eq_refl eq_refl)) as [-> _].
  cbn [existsb is_aggregate sel_items summary_nomenclature_sql orb take].
  rewrite filter_map_comm.
  cbn [eval_items map eval_item]. rewrite length_map. unfold leaf_items.
  rewrite (filter_ext _ (fun n => negb (n_is_folder n))); [reflexivity |].
  intros n. cbn. destruct (n_is_folder n); reflexivity.
Qed.

Lemma summary_clients_row st :
  db_failure st = None ->
  execute_query st summary_clients_sql []
  = ret [[("cnt", CInt (Z.of_nat (List.length (clients st))))]].
Proof.
  intros Hdb.
  destruct (execute_query_accepted st summary_clients_sql [] _
              (run_select_rows st summary_clients_sql []
                 (map client_row (clients st)) (fun _ => true) None
                 Hdb eq_refl eq_refl eq_refl eq_refl)) as [-> _].
  cbn [existsb is_aggregate sel_items summary_clients_sql orb take].
  rewrite filter_all by reflexivity.
  cbn [eval_items map eval_item]. rewrite length_map. reflexivity.
Qed.

Lemma get_summary_stats_reachable st :
  db_failure st = None -> get_summary_stats st = ret (summary_payload st).
Proof.
  intros Hdb. unfold get_summary_stats.
  rewrite (summary_purchases_row st Hdb), (summary_sales_row st Hdb),
    (summary_nomenclature_row st Hdb), (summary_clients_row st Hdb).
  reflexivity.
Qed.

(** X3: [get_summary_stats] over a reachable store.  It returns, with
    no failure note and no exception, the number of purchases and the
    sum of their totals, the number of sales with the sums of the
    realisations and of the corrections, the periods from the earliest
    to the latest date of each table, the number of catalogue entries
    that are not folders and the number of clients; over an empty table
    the sum is zero and the period reads None on both ends. *)
Theorem get_summary_stats_counts_everything st :
  db_failure st = None ->
  get_summary_stats st = ret (summary_payload st)
  /\ (purchase_prices st = [] ->
      field (summary_payload st) "purchases"
      = Some (ODict [("records", OInt 0); ("total_sum", OFloat (Fin 0));
                     ("period", OStr "None — None")])).
Proof.
  intros Hdb. split; [exact (get_summary_stats_reachable st Hdb) |].
  intros Hp. unfold summary_payload. rewrite Hp. reflexivity.
Qed.

(** ** The two directories *)






Lemma filter_none {A} (f : A -> bool) (l : list A) :
  (forall x, f x = false) -> filter f l = [].
Proof.
  intros H. induction l as [| x l IH]; simpl; [reflexivity |].
  rewrite H. exact IH.
Qed.








(** ** Edge cases of the search operations *)


Lemma empty_range_selects_nothing {A} (sel : A -> bool) (date : A -> Z) (lo hi : Z)
    (l : list A) :
  hi < lo ->
  (forall x, sel x = true -> lo <= date x /\ date x <= hi) ->
  filter sel l = [].
Proof.
  intros Hlt H. apply filter_none. intros x.
  destruct (sel x) eqn:E; [| reflexivity].
  destruct (H x E). lia.
Qed.

Lemma purchase_selected_range q s lo hi p :
  purchase_selected q s (Some lo) (Some hi) p = true ->
  lo <= p_doc_date p /\ p_doc_date p <= hi.
Proof.
  unfold purchase_selected. rewrite !andb_true_iff. cbn [on_or_after on_or_before].
  rewrite !Z.leb_le. intros [[_ H1] H2]. split; assumption.
Qed.

Lemma sale_selected_range q c d lo hi x :
  sale_selected q c d (Some lo) (Some hi) x = true ->
  lo <= s_doc_date x /\ s_doc_date x <= hi.
Proof.
  unfold sale_selected. rewrite !andb_true_iff. cbn [on_or_after on_or_before].
  rewrite !Z.leb_le. intros [[_ H1] H2]. split; assumption.
Qed.

Lemma realised_range lo hi x :
  realised (Some lo) (Some hi) x = true -> lo <= s_doc_date x /\ s_doc_date x <= hi.
Proof.
  unfold realised. rewrite !andb_true_iff. cbn [on_or_after on_or_before].
  rewrite !Z.leb_le. intros [[_ H1] H2]. split; assumption.
Qed.

(** X7: an inverted date range.  When both date bounds are given and
    the upper one lies before the lower one, no record is in range:
    over a reachable store [search_purchases] returns no records and
    statistics of zero records, zero suppliers and products, a zero sum
    and NULL dates, and [search_sales], [get_top_clients] and
    [get_top_products] return no records, without any error. *)
Theorem inverted_date_range_matches_nothing st q s c d f t (n : nat) lo hi :
  db_failure st = None ->
  date_bound f = Some (Some lo) ->
  date_bound t = Some (Some hi) ->
  hi < lo ->
  search_purchases st q s f t (PInt (Z.of_nat n))
  = ret (ODict [("type", OStr "purchases");
                ("data", OList []);
                ("stats",
                 obj_of_row [("total_records", CInt 0); ("suppliers", CInt 0);
                             ("products", CInt 0); ("total_sum", CNum 0);
                             ("min_date", CNull); ("max_date", CNull)]);
                ("query_used",
                 OStr (search_purchases_text q s f t (PInt (Z.of_nat n))))])
  /\ data_of (search_sales st q c d f t (PInt (Z.of_nat n))) = []
  /\ data_of (get_top_clients st f t (PInt (Z.of_nat n))) = []
  /\ data_of (get_top_products st f t (PInt (Z.of_nat n))) = [].
Proof.
  intros Hdb Hf Ht Hlt.
  split; [| split; [| split]].
  - rewrite (search_purchases_payload st q s f t n _ _ Hdb Hf Ht).
    unfold purchases_found. rewrite Hf, Ht.
    rewrite (empty_range_selects_nothing _ p_doc_date lo hi _ Hlt)
      by apply purchase_selected_range.
    cbn [newest_purchases_first sort_by fold_right map]. rewrite firstn_nil.
    reflexivity.
  - rewrite search_sales_data, (search_sales_frame _ _ _ _ _ _ _ Hdb).
    unfold sales_found. rewrite Hf, Ht. destruct (doc_type_ok d); [| reflexivity].
    rewrite (empty_range_selects_nothing _ s_doc_date lo hi _ Hlt)
      by apply sale_selected_range.
    cbn [newest_sales_first sort_by fold_right map]. rewrite firstn_nil. reflexivity.
  - rewrite get_top_clients_data, (get_top_clients_frame _ _ _ _ Hdb).
    unfold top_clients_found. rewrite Hf, Ht.
    rewrite (empty_range_selects_nothing _ s_doc_date lo hi _ Hlt)
      by apply realised_range.
    cbn. rewrite firstn_nil. reflexivity.
  - rewrite get_top_products_data, (get_top_products_frame _ _ _ _ Hdb).
    unfold top_products_found. rewrite Hf, Ht.
    rewrite (empty_range_selects_nothing _ s_doc_date lo hi _ Hlt)
      by apply realised_range.
    cbn. rewrite firstn_nil. reflexivity.
Qed.

(** ** The registry against the dispatcher *)

Lemma check_keywords_accepts fname allowed d :
  forallb (fun kv => existsb (String.eqb (fst kv)) allowed) d = true ->
  check_keywords fname allowed d = ret tt.
Proof.
  induction d as [| [k v] d IH]; simpl; [reflexivity |].
  intros H. apply andb_true_iff in H as [Hk Hd]. rewrite Hk. exact (IH Hd).
Qed.

Lemma check_keywords_refuses fname allowed d :
  forallb (fun kv => existsb (String.eqb (fst kv)) allowed) d = false ->
  exists msg, check_keywords fname allowed d = raise (TypeError msg).
Proof.
  induction d as [| [k v] d IH]; simpl; [discriminate |].
  destruct (existsb (String.eqb k) allowed); simpl.
  - exact IH.
  - intros _. eexists. reflexivity.
Qed.

Lemma kw_find_absent d k :
  existsb (String.eqb k) (map fst d) = false -> kw_find d k = None.
Proof.
  induction d as [| [k' v] d IH]; simpl; [reflexivity |].
  intros H. apply orb_false_iff in H as [Hk Hd]. rewrite Hk. exact (IH Hd).
Qed.

Lemma kw_find_present d k :
  existsb (String.eqb k) (map fst d) = true -> exists v, kw_find d k = Some v.
Proof.
  induction d as [| [k' v] d IH]; simpl; [discriminate |].
  destruct (String.eqb k k'); simpl; [intros _; eexists; reflexivity | exact IH].
Qed.

Lemma schema_names : map schema_name TOOL_SCHEMAS = TOOLS.
Proof. reflexivity. Qed.

Ltac typed_payload :=
  repeat match goal with
         | |- context [let (_, _) := ?p in _] => destruct p
         end;
  repeat (rewrite outcome_bind, execute_query_returns; cbv beta iota);
  try match goal with
      | |- context [match ?df with [] => _ | _ :: _ => _ end] => destruct df
      end;
  eexists; eexists; split; [reflexivity | split; reflexivity].

Lemma search_purchases_typed st q s f t l :
  exists p tag, outcome (search_purchases st q s f t l) = inr p
                /\ field p "type" = Some (OStr tag) /\ field p "error" = None.
Proof. unfold search_purchases. typed_payload. Qed.

Lemma search_sales_typed st q c d f t l :
  exists p tag, outcome (search_sales st q c d f t l) = inr p
                /\ field p "type" = Some (OStr tag) /\ field p "error" = None.
Proof. unfold search_sales. typed_payload. Qed.

Lemma search_nomenclature_typed st q l :
  exists p tag, outcome (search_nomenclature st q l) = inr p
                /\ field p "type" = Some (OStr tag) /\ field p "error" = None.
Proof. unfold search_nomenclature. typed_payload. Qed.

Lemma search_clients_typed st q l :
  exists p tag, outcome (search_clients st q l) = inr p
                /\ field p "type" = Some (OStr tag) /\ field p "error" = None.
Proof. unfold search_clients. typed_payload. Qed.

Lemma get_price_dynamics_typed st n :
  exists p tag, outcome (get_price_dynamics st n) = inr p
                /\ field p "type" = Some (OStr tag) /\ field p "error" = None.
Proof.
  unfold get_price_dynamics. rewrite outcome_bind, execute_query_returns.
  destruct (frame st price_dynamics_sql [like_param n]);
    eexists; eexists; (split; [reflexivity | split; reflexivity]).
Qed.

Lemma get_top_clients_typed st f t l :
  exists p tag, outcome (get_top_clients st f t l) = inr p
                /\ field p "type" = Some (OStr tag) /\ field p "error" = None.
Proof. unfold get_top_clients. typed_payload. Qed.

Lemma get_top_products_typed st f t l :
  exists p tag, outcome (get_top_products st f t l) = inr p
                /\ field p "type" = Some (OStr tag) /\ field p "error" = None.
Proof. unfold get_top_products. typed_payload. Qed.

Lemma get_summary_stats_typed st :
  db_failure st = None ->
  exists p tag, outcome (get_summary_stats st) = inr p
                /\ field p "type" = Some (OStr tag) /\ field p "error" = None.
Proof.
  intros Hdb. rewrite (get_summary_stats_reachable st Hdb).
  eexists; eexists; split; [reflexivity | split; reflexivity].
Qed.

Ltac each_schema H :=
  simpl in H;
  repeat (destruct H as [<- | H]); [.. | destruct H].

Ltac accept_keywords Hkeys :=
  unfold dispatch; cbn [schema_name String.eqb Ascii.eqb Bool.eqb];
  match goal with
  | |- context [check_keywords ?f ?allowed ?d] =>
      rewrite (check_keywords_accepts f allowed d Hkeys)
  end.

(** X8: an input that conforms to the input schema of a registered
    tool is served.  When every key of the input is a property of the
    tool's schema and every required property is present, [execute_tool]
    returns the serialisation of a payload that carries a "type" tag and
    no "error" key, whatever the values are and whether or not the
    store can be reached; only [get_summary_stats] needs a reachable
    store for that. *)
Theorem schema_conforming_input_is_served st s input :
  In s TOOL_SCHEMAS ->
  conforms s input = true ->
  (schema_name s = "get_summary_stats" -> db_failure st = None) ->
  exists payload tag,
    outcome (execute_tool st (schema_name s) input) = inr (json_dumps payload)
    /\ outcome (dispatch st (schema_name s) input) = inr payload
    /\ field payload "type" = Some (OStr tag)
    /\ field payload "error" = None.
Proof.
  intros Hs Hc Hdb.
  assert (Hd : exists p tag, outcome (dispatch st (schema_name s) input) = inr p
                             /\ field p "type" = Some (OStr tag)
                             /\ field p "error" = None).
  { apply andb_true_iff in Hc as [Hkeys Hreq].
    each_schema Hs; cbn [properties map prop_name string_prop limit_prop] in Hkeys.
    - accept_keywords Hkeys. rewrite outcome_bind, outcome_ret.
      apply search_purchases_typed.
    - accept_keywords Hkeys. rewrite outcome_bind, outcome_ret.
      apply search_sales_typed.
    - accept_keywords Hkeys. rewrite outcome_bind, outcome_ret.
      apply search_nomenclature_typed.
    - accept_keywords Hkeys. rewrite outcome_bind, outcome_ret.
      apply search_clients_typed.
    - accept_keywords Hkeys. rewrite outcome_bind, outcome_ret.
      cbn [required_props forallb] in Hreq. apply andb_true_iff in Hreq as [Hreq _].
      destruct (kw_find_present input "nomenclature" Hreq) as [v Hv].
      unfold required. rewrite Hv, outcome_bind, outcome_ret.
      apply get_price_dynamics_typed.
    - accept_keywords Hkeys. rewrite outcome_bind, outcome_ret.
      apply get_top_clients_typed.
    - accept_keywords Hkeys. rewrite outcome_bind, outcome_ret.
      apply get_top_products_typed.
    - apply get_summary_stats_typed. apply Hdb. reflexivity. }
  destruct Hd as (p & tag & Hp & Hty & Herr).
  exists p, tag. rewrite execute_tool_outcome, Hp. auto.
Qed.

Lemma execute_tool_type_error st name input msg :
  dispatch st name input = raise (TypeError msg) ->
  execute_tool st name input = ret (json_dumps (error_payload msg)).
Proof. intros H. unfold execute_tool. rewrite H. reflexivity. Qed.

Ltac refuse_keywords Hkeys :=
  match goal with
  | |- exists msg, forall st, execute_tool st ?f _ = _ =>
      match type of Hkeys with
      | forallb (fun kv => existsb (String.eqb (fst kv)) ?allowed) ?d = false =>
          destruct (check_keywords_refuses f allowed d Hkeys) as [msg Hmsg];
          exists msg; intros st; apply execute_tool_type_error;
          unfold dispatch; cbn [String.eqb Ascii.eqb Bool.eqb];
          rewrite Hmsg; reflexivity
      end
  end.

(** X9: an input outside the schema is refused before any query.  For
    every registered tool but [get_summary_stats], an input with a key
    that is no property of the tool's schema, or without a required
    property, is answered by an error payload that is the same for
    every state of the store; [get_summary_stats] is called without the
    input and so answers as on the empty one. *)
Theorem nonconforming_input_is_refused s input :
  In s TOOL_SCHEMAS ->
  conforms s input = false ->
  if String.eqb (schema_name s) "get_summary_stats"
  then forall st, execute_tool st (schema_name s) input
                  = execute_tool st (schema_name s) []
  else exists msg, forall st,
         execute_tool st (schema_name s) input
         = ret (json_dumps (error_payload msg)).
Proof.
  intros Hs Hc. unfold conforms in Hc.
  destruct (forallb (fun kv => existsb (String.eqb (fst kv))
                                 (map prop_name (properties s))) input) eqn:Hkeys.
  - simpl in Hc.
    each_schema Hs; cbn [properties map prop_name string_prop limit_prop] in Hkeys;
      cbn [required_props forallb] in Hc; try discriminate Hc;
      cbn [schema_name String.eqb Ascii.eqb Bool.eqb].
    apply andb_false_iff in Hc as [Hc | Hc]; [| discriminate Hc].
    exists "get_price_dynamics() missing 1 required positional argument: 'nomenclature'".
    intros st. apply execute_tool_type_error.
    unfold dispatch. cbn [String.eqb Ascii.eqb Bool.eqb].
    rewrite (check_keywords_accepts _ _ _ Hkeys).
    unfold required. rewrite (kw_find_absent _ _ Hc). reflexivity.
  - clear Hc.
    each_schema Hs; cbn [properties map prop_name string_prop limit_prop] in Hkeys;
      cbn [schema_name String.eqb Ascii.eqb Bool.eqb];
      try refuse_keywords Hkeys.
    intros st. reflexivity.
Qed.

Lemma check_keywords_snoc fname allowed d k v :
  existsb (String.eqb k) allowed = true ->
  check_keywords fname allowed (d ++ [(k, v)]) = check_keywords fname allowed d.
Proof.
  intros Hk. induction d as [| [k' v'] d IH]; simpl.
  - rewrite Hk. reflexivity.
  - rewrite IH. reflexivity.
Qed.

Lemma kw_find_snoc_other d k v k' :
  String.eqb k' k = false -> kw_find (d ++ [(k, v)]) k' = kw_find d k'.
Proof.
  intros Hk. induction d as [| [k0 v0] d IH]; simpl.
  - rewrite Hk. reflexivity.
  - rewrite IH. reflexivity.
Qed.

Lemma kw_snoc_other d k v k' default :
  String.eqb k' k = false -> kw (d ++ [(k, v)]) k' default = kw d k' default.
Proof. intros Hk. unfold kw. rewrite (kw_find_snoc_other d k v k' Hk). reflexivity. Qed.

Lemma kw_snoc_same d k v default :
  kw_find d k = None -> kw (d ++ [(k, v)]) k default = v.
Proof.
  intros Hn. unfold kw.
  assert (H : kw_find (d ++ [(k, v)]) k = Some v).
  { induction d as [| [k0 v0] d IH]; simpl in Hn |- *.
    - rewrite String.eqb_refl. reflexivity.
    - destruct (String.eqb k k0); [discriminate Hn | exact (IH Hn)]. }
  rewrite H. reflexivity.
Qed.

Lemma kw_default d k v : kw_find d k = None -> kw d k v = v.
Proof. intros Hn. unfold kw. rewrite Hn. reflexivity. Qed.

Ltac supply_default Hn :=
  unfold dispatch; cbn [schema_name prop_name limit_prop String.eqb Ascii.eqb Bool.eqb];
  rewrite check_keywords_snoc by reflexivity;
  rewrite ?kw_snoc_other by reflexivity;
  rewrite (kw_snoc_same _ _ _ _ Hn), (kw_default _ _ _ Hn);
  reflexivity.

(** X10: the defaults the registry declares are the defaults of the
    operations.  When the input gives no value for a property whose
    schema entry declares a default (the limit: 20 for the two searches
    over documents, 30 for the two directories, 10 for the two
    leaderboards), the invocation behaves exactly as with that default
    supplied. *)
Theorem omitted_argument_takes_the_schema_default st s input p d :
  In s TOOL_SCHEMAS ->
  In p (properties s) ->
  prop_default p = Some d ->
  kw_find input (prop_name p) = None ->
  dispatch st (schema_name s) input
  = dispatch st (schema_name s) (input ++ [(prop_name p, d)])
  /\ execute_tool st (schema_name s) input
     = execute_tool st (schema_name s) (input ++ [(prop_name p, d)]).
Proof.
  intros Hs Hp Hd Hn.
  assert (H : dispatch st (schema_name s) input
              = dispatch st (schema_name s) (input ++ [(prop_name p, d)])).
  { each_schema Hs; cbn [properties] in Hp; simpl in Hp;
      repeat (destruct Hp as [<- | Hp]); try destruct Hp;
      try discriminate Hd;
      cbn [prop_default limit_prop] in Hd; injection Hd as <-;
      cbn [prop_name limit_prop] in Hn;
      supply_default Hn. }
  split; [exact H |]. unfold execute_tool. rewrite H. reflexivity.
Qed.

(** ** The log of a call *)












(** ** The roles of a transcript *)

Lemma pair_induction {A} (P : list A -> Prop) :
  P [] -> (forall x, P [x]) -> (forall x y l, P l -> P (x :: y :: l)) ->
  forall l, P l.
Proof.
  intros H0 H1 H2.
  assert (H : forall l, P l /\ forall x, P (x :: l)).
  { induction l as [| y l [IHl IHx]]; [split; [exact H0 | exact H1] |].
    split; [apply IHx | intros x; apply H2; exact IHl]. }
  intros l. apply H.
Qed.

Lemma dialogue_app d l : dialogue d = true -> dialogue (d ++ l) = dialogue l.
Proof.
  induction d as [| x | x y d IH] using pair_induction; intros H.
  - reflexivity.
  - discriminate H.
  - cbn [dialogue] in H. apply andb_true_iff in H as [Hxy Hd].
    cbn [app dialogue]. rewrite Hxy, (IH Hd). reflexivity.
Qed.

Lemma awaits_reply_open d l : dialogue d = true -> awaits_reply (d ++ l) = awaits_reply l.
Proof.
  induction d as [| x | x y d IH] using pair_induction; intros H.
  - reflexivity.
  - discriminate H.
  - cbn [dialogue] in H. apply andb_true_iff in H as [Hxy Hd].
    cbn [app awaits_reply]. rewrite Hxy, (IH Hd). reflexivity.
Qed.

Lemma awaits_reply_round m a u :
  awaits_reply m = true -> role a = "assistant" -> role u = "user" ->
  awaits_reply (m ++ [a; u]) = true.
Proof.
  intros Hm Ha Hu. revert Hm.
  induction m as [| x | x y m IH] using pair_induction; intros Hm.
  - discriminate Hm.
  - cbn [awaits_reply] in Hm. cbn [app awaits_reply]. rewrite Hm, Ha, Hu. reflexivity.
  - cbn [awaits_reply] in Hm. apply andb_true_iff in Hm as [Hxy Hm].
    cbn [app awaits_reply]. rewrite Hxy. exact (IH Hm).
Qed.

Lemma awaits_reply_paired rounds : paired rounds ->
  forall m, awaits_reply m = true -> awaits_reply (m ++ rounds) = true.
Proof.
  induction 1 as [| bs rs rest Hids Hp IH]; intros m Hm.
  - rewrite app_nil_r. exact Hm.
  - change (?a :: ?u :: rest) with ([a; u] ++ rest). rewrite app_assoc.
    apply IH. apply awaits_reply_round; [exact Hm | reflexivity | reflexivity].
Qed.

Lemma initial_state_awaits user_message chat_history :
  dialogue chat_history = true ->
  awaits_reply (messages (initial_state user_message chat_history)) = true.
Proof.
  intros H. cbn [initial_state messages]. rewrite (awaits_reply_open _ _ H). reflexivity.
Qed.

(** X12: the roles of every transcript sent to the model.  When the
    history handed to [get_ai_response] is a closed dialogue (user and
    assistant turns in pairs), the transcript of every request of the
    call, and the transcript the call ends with, alternates between
    user and assistant turns, starts with a user turn and ends with the
    user turn that is to be answered. *)
Theorem every_request_awaits_a_reply model db user_message chat_history :
  dialogue chat_history = true ->
  (forall k,
      awaits_reply
        (messages (state_at model db (initial_state user_message chat_history) k))
      = true)
  /\ (forall fuel f used t,
         outcome (get_ai_response model db fuel user_message chat_history)
         = inr (Returned f used t) ->
         awaits_reply t = true).
Proof.
  intros Hd. split.
  - induction k as [| k IH]; [apply initial_state_awaits; exact Hd |].
    cbn [state_at].
    destruct (next_state_appends model db
                (state_at model db (initial_state user_message chat_history) k))
      as (rs & _ & Hm & _).
    rewrite Hm. apply awaits_reply_round; [exact IH | reflexivity | reflexivity].
  - intros fuel f used t H. unfold get_ai_response in H.
    destruct (ai_loop_transcript_paired _ _ _ _ _ _ _ H) as (rounds & -> & Hp).
    apply awaits_reply_paired; [exact Hp |].
    apply initial_state_awaits. exact Hd.
Qed.

(** ** The session of the chat page *)

Lemma ai_loop_never_raises model db fuel : forall s,
  exists r, outcome (ai_loop model db fuel s) = inr r.
Proof.
  induction fuel as [| fuel IH]; intros s.
  - exists Looping. reflexivity.
  - rewrite ai_loop_step.
    destruct (is_tool_stop (model (requests s) (messages s))); [apply IH |].
    eexists. reflexivity.
Qed.

Lemma dialogue_turn msgs text answer :
  dialogue msgs = true ->
  dialogue ((msgs ++ [plain "user" text]) ++ [plain "assistant" answer]) = true.
Proof.
  intros H. rewrite <- app_assoc. rewrite (dialogue_app _ _ H). reflexivity.
Qed.

(** X13: a chat turn of the page.  Whatever [get_ai_response] comes to,
    a run of the page that handles an input leaves nothing pending and
    keeps the stored conversation a closed dialogue: either nothing is
    stored (no input, or an empty one), or exactly two plain turns are
    appended, the user's text and one assistant turn.  The history
    handed to [get_ai_response] is the conversation as it was stored
    before the input.  The assistant turn is the final answer, and the
    log grows by the tools of that call; or, when the call raised, it
    is the error text, and the log is left as it was. *)
Theorem handle_input_appends_one_exchange call s chat_input s' :
  dialogue (ss_messages s) = true ->
  handle_input call s chat_input = Some s' ->
  pending_message s' = None
  /\ dialogue (ss_messages s') = true
  /\ ((ss_messages s' = ss_messages s /\ ss_tools_log s' = ss_tools_log s)
      \/ exists text answer,
           String.eqb text "" = false
           /\ (pending_message s = Some text
               \/ (pending_message s = None /\ chat_input = Some text))
           /\ ss_messages s'
              = ss_messages s ++ [plain "user" text; plain "assistant" answer]
           /\ ((exists used t,
                   outcome (call text (ss_messages s)) = inr (Returned answer used t)
                   /\ ss_tools_log s' = ss_tools_log s ++ used)
               \/ (exists e,
                      outcome (call text (ss_messages s)) = inl e
                      /\ answer = "❌ Ошибка: " +++ exn_str e
                      /\ ss_tools_log s' = ss_tools_log s))).
Proof.
  intros Hd H. unfold handle_input in H.
  assert (Hturn : forall text,
             (pending_message s = Some text
              \/ (pending_message s = None /\ chat_input = Some text)) ->
             (if String.eqb text ""
              then Some {| ss_messages := ss_messages s;
                           ss_tools_log := ss_tools_log s;
                           pending_message := None |}
              else
                match outcome (call text
                                 (removelast (ss_messages s ++ [plain "user" text]))) with
                | inr (Returned response used _) =>
                    Some {| ss_messages :=
                              (ss_messages s ++ [plain "user" text])
                              ++ [plain "assistant" response];
                            ss_tools_log := ss_tools_log s ++ used;
                            pending_message := None |}
                | inr Looping => None
                | inl e =>
                    Some {| ss_messages :=
                              (ss_messages s ++ [plain "user" text])
                              ++ [plain "assistant" ("❌ Ошибка: " +++ exn_str e)];
                            ss_tools_log := ss_tools_log s;
                            pending_message := None |}
                end) = Some s' ->
             pending_message s' = None
             /\ dialogue (ss_messages s') = true
             /\ ((ss_messages s' = ss_messages s /\ ss_tools_log s' = ss_tools_log s)
                 \/ exists text answer,
                      String.eqb text "" = false
                      /\ (pending_message s = Some text
                          \/ (pending_message s = None /\ chat_input = Some text))
                      /\ ss_messages s'
                         = ss_messages s ++ [plain "user" text; plain "assistant" answer]
                      /\ ((exists used t,
                              outcome (call text (ss_messages s))
                              = inr (Returned answer used t)
                              /\ ss_tools_log s' = ss_tools_log s ++ used)
                          \/ (exists e,
                                 outcome (call text (ss_messages s)) = inl e
                                 /\ answer = "❌ Ошибка: " +++ exn_str e
                                 /\ ss_tools_log s' = ss_tools_log s)))).
  { intros text Hsrc Ht.
    destruct (String.eqb text "") eqn:Hempty.
    - injection Ht as <-. cbn [ss_messages ss_tools_log pending_message].
      split; [reflexivity |]. split; [exact Hd |]. left. split; reflexivity.
    - rewrite removelast_last in Ht.
      destruct (outcome (call text (ss_messages s))) as [e | [response used t |]] eqn:Hcall.
      + injection Ht as <-. cbn [ss_messages ss_tools_log pending_message].
        split; [reflexivity |]. split; [apply dialogue_turn; exact Hd |].
        right. exists text, ("❌ Ошибка: " +++ exn_str e).
        split; [exact Hempty |]. split; [exact Hsrc |].
        split; [rewrite <- app_assoc; reflexivity |].
        right. exists e. split; [exact Hcall | split; reflexivity].
      + injection Ht as <-. cbn [ss_messages ss_tools_log pending_message].
        split; [reflexivity |]. split; [apply dialogue_turn; exact Hd |].
        right. exists text, response.
        split; [exact Hempty |]. split; [exact Hsrc |].
        split; [rewrite <- app_assoc; reflexivity |].
        left. exists used, t. split; [exact Hcall | reflexivity].
      + discriminate Ht. }
  destruct (pending_message s) as [ex |] eqn:Hpend.
  - apply (Hturn ex); [left; reflexivity | exact H].
  - destruct chat_input as [text |].
    + apply (Hturn text); [right; split; reflexivity | exact H].
    + injection H as <-. cbn [ss_messages ss_tools_log pending_message].
      split; [reflexivity |]. split; [exact Hd |]. left. split; reflexivity.
Qed.

(** X14: failures of tools never end a chat turn with the error text.
    With the model provider answering every request, a chat turn on a
    non-empty input that comes to an end stores the user's text and the
    model's final answer, whatever the tools and the store did on the
    way: the transcript of the call began with the stored conversation
    followed by the user's text, once, its rounds are not stored, and
    the log grows by the tools the call used. *)
Theorem tool_failures_never_end_a_chat_turn model db fuel s text s' :
  pending_message s = None ->
  String.eqb text "" = false ->
  handle_input (get_ai_response model db fuel) s (Some text) = Some s' ->
  exists f used rounds,
    outcome (get_ai_response model db fuel text (ss_messages s))
    = inr (Returned f used (ss_messages s ++ [plain "user" text] ++ rounds))
    /\ paired rounds
    /\ ss_messages s' = ss_messages s ++ [plain "user" text; plain "assistant" f]
    /\ ss_tools_log s' = ss_tools_log s ++ used.
Proof.
  intros Hpend Hempty H. unfold handle_input in H.
  rewrite Hpend, Hempty, removelast_last in H.
  destruct (ai_loop_never_raises model db fuel (initial_state text (ss_messages s)))
    as [r Hr].
  fold (get_ai_response model db fuel text (ss_messages s)) in Hr.
  rewrite Hr in H. destruct r as [f used t |]; [| discriminate H].
  injection H as <-. cbn [ss_messages ss_tools_log].
  unfold get_ai_response in Hr.
  destruct (ai_loop_transcript_paired _ _ _ _ _ _ _ Hr) as (rounds & Ht & Hp).
  cbn [initial_state messages] in Ht. rewrite <- app_assoc in Ht.
  exists f, used, rounds. unfold get_ai_response. rewrite Hr, Ht.
  split; [reflexivity |]. split; [exact Hp |].
  split; [rewrite <- app_assoc; reflexivity | reflexivity].
Qed.

(** ** The operations over an unreachable store *)

End Agent.

(** ** Examples on the sample instance *)

Lemma tool_use_round_is_paired_witness :
  exists rs : list tool_result,
    map tool_use_id rs = ["toolu_1"; "toolu_2"]
    /\ messages (next_state sample_parse_date sample_date_str sample_num_str
                   sample_json_dumps sample_model (fun _ => sample_store)
                   (initial_state "Top client?" []))
       = [{| role := "user"; msg_content := Plain "Top client?" |};
          {| role := "assistant"; msg_content := Blocks (content (sample_model 0 [])) |};
          {| role := "user"; msg_content := ToolResults rs |}]
    /\ requests (next_state sample_parse_date sample_date_str sample_num_str
                   sample_json_dumps sample_model (fun _ => sample_store)
                   (initial_state "Top client?" [])) = 1%nat
    /\ outcome (ai_loop sample_parse_date sample_date_str sample_num_str
                  sample_json_dumps sample_model (fun _ => sample_store) 1
                  (initial_state "Top client?" []))
       = outcome (ai_loop sample_parse_date sample_date_str sample_num_str
                    sample_json_dumps sample_model (fun _ => sample_store) 0
                    (next_state sample_parse_date sample_date_str sample_num_str
                       sample_json_dumps sample_model (fun _ => sample_store)
                       (initial_state "Top client?" []))).
Proof.
  exact (tool_use_round_is_paired sample_parse_date sample_date_str sample_num_str
           sample_json_dumps sample_model (fun _ => sample_store) 0
           (initial_state "Top client?" []) eq_refl).
Defined.



(** C9 fails as stated: [get_price_dynamics] takes no limit and returns
    all matching records, and a large limit is passed on as it is. *)
Lemma price_dynamics_takes_no_limit :
  outcome (dispatch sample_parse_date sample_date_str sample_num_str sample_store
             "get_price_dynamics" [("nomenclature", PStr "sugar"); ("limit", PInt 1)])
  = inl (TypeError "get_price_dynamics() got an unexpected keyword argument 'limit'")
  /\ List.length (data_of (get_price_dynamics sample_parse_date sample_store
                             (PStr "sugar"))) = 2%nat
  /\ search_clients_text PNone (PInt 1000000000)
     = "SELECT name, inn FROM clients WHERE 1=1 ORDER BY name LIMIT 1000000000"
  /\ List.length (data_of (search_clients sample_parse_date sample_store PNone
                             (PInt 1000000000))) = 2%nat.
Proof. repeat split; reflexivity. Qed.




(** The zero price of the oldest matching record gives a percentage that
    is no number, and no exception. *)
Example zero_first_price_gives_infinity :
  field (ODict [("x", OFloat (price_change_pct 0 5))]) "x" = Some (OFloat PInf)
  /\ price_change_pct 0 0 = NaN
  /\ exists r, price_change_pct 4 5 = Fin r /\ (r == 25)%Q.
Proof.
  split; [reflexivity |]. split; [reflexivity |].
  eexists. split; reflexivity.
Qed.

Example free_sample_price_dynamics :
  exists payload stats,
    outcome (get_price_dynamics sample_parse_date store_with_free_sample (PStr "vanilla"))
    = inr payload
    /\ field payload "stats" = Some stats
    /\ field stats "first_price" = Some (OFloat (Fin 0))
    /\ field stats "last_price" = Some (OFloat (Fin 5))
    /\ field stats "price_change_pct" = Some (OFloat PInf).
Proof. do 2 eexists. repeat split; reflexivity. Qed.

Example store_down_conversation :
  outcome (get_ai_response sample_parse_date sample_date_str sample_num_str
             sample_json_dumps
             (fun k _ => match k with
                         | O => {| stop_reason := "tool_use";
                                   content := [ToolUseBlock "toolu_1" "get_summary_stats" []] |}
                         | S _ => {| stop_reason := "end_turn";
                                     content := [TextBlock "No data."] |}
                         end)
             (fun _ => store_down) 2 "How is business?" [])
  = inr (Returned "No data."
           [{| log_name := "get_summary_stats"; log_input := [];
               output_preview :=
                 sample_json_dumps
                   (error_payload "single positional indexer is out-of-bounds") |}]
           [{| role := "user"; msg_content := Plain "How is business?" |};
            {| role := "assistant";
               msg_content := Blocks [ToolUseBlock "toolu_1" "get_summary_stats" []] |};
            {| role := "user";
               msg_content :=
                 ToolResults
                   [{| tool_use_id := "toolu_1";
                       result_content :=
                         sample_json_dumps
                           (error_payload
                              "single positional indexer is out-of-bounds") |}] |}]).
Proof. reflexivity. Qed.

Example execute_tool_error_payloads :
  outcome (execute_tool sample_parse_date sample_date_str sample_num_str
             sample_json_dumps sample_store "get_weather" [("city", PStr "Moscow")])
  = inr (sample_json_dumps (error_payload "Неизвестный инструмент: get_weather"))
  /\ outcome (execute_tool sample_parse_date sample_date_str sample_num_str
                sample_json_dumps sample_store "search_clients" [("name", PStr "x")])
     = inr (sample_json_dumps
              (error_payload "search_clients() got an unexpected keyword argument 'name'"))
  /\ outcome (execute_tool sample_parse_date sample_date_str sample_num_str
                sample_json_dumps sample_store "get_price_dynamics" [])
     = inr (sample_json_dumps
              (error_payload
                 "get_price_dynamics() missing 1 required positional argument: 'nomenclature'"))
  /\ outcome (execute_tool sample_parse_date sample_date_str sample_num_str
                sample_json_dumps sample_store "search_clients" [("query", PStr "LEN")])
     = inr (sample_json_dumps
              (ODict [("type", OStr "clients");
                      ("data", OList [ODict [("name", OCell (CText "Lenta"));
                                             ("inn", OCell (CText "7802"))]]);
                      ("total_found", OInt 1)])).
Proof. repeat split; reflexivity. Qed.

Example sample_conversation :
  exists results,
    outcome (get_ai_response sample_parse_date sample_date_str sample_num_str
               sample_json_dumps sample_model (fun _ => sample_store) 2
               "Top client?" [])
    = inr (Returned "Magnit."
             [{| log_name := "get_top_clients"; log_input := [("limit", PInt 1)];
                 output_preview :=
                   preview (sample_json_dumps
                              (ODict [("type", OStr "top_clients");
                                      ("data",
                                       to_records
                                         [[("client_name", CText "Magnit");
                                           ("total_sum", CNum 350);
                                           ("orders_count", CInt 2)]])])) |};
              {| log_name := "get_weather"; log_input := [];
                 output_preview :=
                   sample_json_dumps
                     (error_payload "Неизвестный инструмент: get_weather") |}]
             [{| role := "user"; msg_content := Plain "Top client?" |};
              {| role := "assistant"; msg_content := Blocks (content (sample_model 0 [])) |};
              {| role := "user"; msg_content := ToolResults results |}])
    /\ map tool_use_id results = ["toolu_1"; "toolu_2"]
    /\ outcome (get_ai_response sample_parse_date sample_date_str sample_num_str
                  sample_json_dumps sample_model (fun _ => sample_store) 1
                  "Top client?" [])
       = inr Looping.
Proof. eexists. repeat split; reflexivity. Qed.

(** ** Examples for the search operations and the statistics *)



Lemma get_summary_stats_counts_everything_witness :
  get_summary_stats sample_parse_date sample_date_str sample_num_str sample_store
  = ret (summary_payload sample_date_str sample_num_str sample_store).
Proof.
  exact (proj1 (get_summary_stats_counts_everything sample_parse_date sample_date_str
                  sample_num_str sample_store eq_refl)).
Defined.




Lemma inverted_date_range_matches_nothing_witness :
  data_of (get_top_clients sample_parse_date sample_store
             (PStr "3") (PStr "1") (PInt 10)) = [].
Proof.
  pose proof (inverted_date_range_matches_nothing sample_parse_date sample_store
                PNone PNone PNone PNone (PStr "3") (PStr "1") 10 3 1
                eq_refl eq_refl eq_refl eq_refl) as (_ & _ & H & _).
  exact H.
Defined.

(** ** Examples for the registry, the log and the session *)

Lemma schema_conforming_input_is_served_witness :
  exists payload tag,
    outcome (execute_tool sample_parse_date sample_date_str sample_num_str
               sample_json_dumps sample_store "get_summary_stats" [])
    = inr (sample_json_dumps payload)
    /\ field payload "type" = Some (OStr tag)
    /\ field payload "error" = None.
Proof.
  destruct (schema_conforming_input_is_served sample_parse_date sample_date_str
              sample_num_str sample_json_dumps sample_store
              {| schema_name := "get_summary_stats"; properties := [];
                 required_props := [] |} [])
    as (payload & tag & Hout & _ & Hty & Herr).
  - do 7 right. left. reflexivity.
  - reflexivity.
  - intros _. reflexivity.
  - exists payload, tag. split; [exact Hout | split; assumption].
Defined.

Lemma nonconforming_input_is_refused_witness :
  exists msg, forall st,
    execute_tool sample_parse_date sample_date_str sample_num_str sample_json_dumps
      st "get_price_dynamics" []
    = ret (sample_json_dumps (error_payload msg)).
Proof.
  refine (nonconforming_input_is_refused sample_parse_date sample_date_str
            sample_num_str sample_json_dumps
            {| schema_name := "get_price_dynamics";
               properties := [string_prop "nomenclature"];
               required_props := ["nomenclature"] |} [] _ _).
  - do 4 right. left. reflexivity.
  - reflexivity.
Defined.

Lemma omitted_argument_takes_the_schema_default_witness :
  execute_tool sample_parse_date sample_date_str sample_num_str sample_json_dumps
    sample_store "search_clients" [("query", PStr "magnit")]
  = execute_tool sample_parse_date sample_date_str sample_num_str sample_json_dumps
      sample_store "search_clients" [("query", PStr "magnit"); ("limit", PInt 30)].
Proof.
  refine (proj2 (omitted_argument_takes_the_schema_default sample_parse_date
                   sample_date_str sample_num_str sample_json_dumps sample_store
                   {| schema_name := "search_clients";
                      properties := [string_prop "query"; limit_prop 30];
                      required_props := [] |}
                   [("query", PStr "magnit")] (limit_prop 30) (PInt 30) _ _ _ _)).
  - do 3 right. left. reflexivity.
  - right. left. reflexivity.
  - reflexivity.
  - reflexivity.
Defined.


Lemma every_request_awaits_a_reply_witness :
  awaits_reply
    (messages (state_at sample_parse_date sample_date_str sample_num_str
                 sample_json_dumps sample_model (fun _ => sample_store)
                 (initial_state "Top client?" []) 1)) = true.
Proof.
  exact (proj1 (every_request_awaits_a_reply sample_parse_date sample_date_str
                  sample_num_str sample_json_dumps sample_model
                  (fun _ => sample_store) "Top client?" [] eq_refl) 1%nat).
Defined.

Lemma handle_input_appends_one_exchange_witness :
  exists s',
    handle_input
      (get_ai_response sample_parse_date sample_date_str sample_num_str
         sample_json_dumps sample_model (fun _ => sample_store) 2)
      {| ss_messages := []; ss_tools_log := []; pending_message := Some "Top client?" |}
      None
    = Some s'
    /\ pending_message s' = None
    /\ dialogue (ss_messages s') = true.
Proof.
  eexists. split; [reflexivity |].
  pose proof (handle_input_appends_one_exchange
                (get_ai_response sample_parse_date sample_date_str sample_num_str
                   sample_json_dumps sample_model (fun _ => sample_store) 2)
                {| ss_messages := []; ss_tools_log := [];
                   pending_message := Some "Top client?" |}
                None _ eq_refl eq_refl) as (Hp & Hd & _).
  split; [exact Hp | exact Hd].
Defined.

Lemma tool_failures_never_end_a_chat_turn_witness :
  exists s',
    handle_input
      (get_ai_response sample_parse_date sample_date_str sample_num_str
         sample_json_dumps sample_model (fun _ => store_down) 2)
      {| ss_messages := []; ss_tools_log := []; pending_message := None |}
      (Some "Top client?")
    = Some s'
    /\ ss_messages s' = [plain "user" "Top client?"; plain "assistant" "Magnit."].
Proof.
  eexists. split; [reflexivity |].
  destruct (tool_failures_never_end_a_chat_turn sample_parse_date sample_date_str
              sample_num_str sample_json_dumps sample_model (fun _ => store_down) 2
              {| ss_messages := []; ss_tools_log := []; pending_message := None |}
              "Top client?" _ eq_refl eq_refl eq_refl)
    as (f & used & rounds & Hrun & _ & Hm & _).
  reflexivity.
Defined.

